(** * libvirt_exporter: the collection pipeline of [libvirt_exporter.go]

    A shallow embedding of [CollectDomain], [CollectFromLibvirt] and
    [LibvirtExporter.Collect], together with the parts of their collaborators
    (libvirt-go, client_golang, encoding/xml) that the code relies on.

    - The hypervisor is an arbitrary stateful world [W] behind the
      [libvirt.Client] interface; every call may change it and may fail.
    - The metrics channel [ch], the log and the sequence of calls made to the
      collaborators are components of the program state.
    - [float64] is IEEE 754 binary64, taken from the Standard Library's
      executable specification [SpecFloat].
    - Go's [defer] is modelled with an explicit stack of deferred calls in the
      frame of the running function, and the range variable whose address a
      deferred call captures is a cell of that frame. *)

From Stdlib Require Import ZArith List String Bool Lia.
From Stdlib Require Import Floats.SpecFloat.
Import ListNotations.

Local Open Scope string_scope.
Local Open Scope list_scope.

(** ** Go values *)

(** Go's [error] values, as far as the exporter can meet them: the errors of
    libvirt-go (a [libvirt.Error] struct) and those of encoding/xml. *)
Inductive error : Type :=
| VirError (Code : Z) (Domain : Z) (Message : string) (Level : Z)
| XmlError (msg : string).

(** A Go result pair [(v, err)] with exactly one of the two set. *)
Inductive result (A : Type) : Type :=
| Ok (v : A)
| Err (err : error).
Arguments Ok {A} v.
Arguments Err {A} err.

(** ** float64 *)

Definition float64 : Type := spec_float.

Definition prec : Z := 53.
Definition emax : Z := 1024.

(** The conversion [float64(x)] of an integer (round to nearest, ties to
    even). *)
Definition float64_of_int (x : Z) : float64 := binary_normalize prec emax x 0 false.

(** The quotient [x / y] of two float64 values. *)
Definition float64_div (x y : float64) : float64 := SFdiv prec emax x y.

(** The constants [1e9], [1.0] and [0.0] of the source. *)
Definition const_1e9 : float64 := float64_of_int 1000000000.
Definition const_1 : float64 := float64_of_int 1.
Definition const_0 : float64 := S754_zero false.

(** The integer a float64 denotes, when it denotes one. *)
Definition float64_to_int (f : float64) : option Z :=
  match f with
  | S754_zero _ => Some 0%Z
  | S754_finite s m (Zneg k) =>
      if (Zpos m mod 2 ^ Zpos k =? 0)%Z
      then Some (cond_Zopp s (Zpos m / 2 ^ Zpos k))
      else None
  | S754_finite s m e => Some (cond_Zopp s (Zpos m * 2 ^ e))
  | _ => None
  end.

(** ** client_golang/prometheus *)

Module prometheus.

Inductive ValueType : Type := CounterValue | GaugeValue | UntypedValue.

Record Desc : Type := {
  fqName : string;
  help : string;
  variableLabels : list string
}.

(** [BuildFQName] joins the non-empty parts with an underscore. *)
Definition BuildFQName (namespace subsystem name : string) : string :=
  if (name =? "")%string then ""
  else if negb (namespace =? "")%string && negb (subsystem =? "")%string
       then (namespace ++ "_" ++ subsystem ++ "_" ++ name)%string
  else if negb (namespace =? "")%string then (namespace ++ "_" ++ name)%string
  else if negb (subsystem =? "")%string then (subsystem ++ "_" ++ name)%string
  else name.

(** [NewDesc]; the exporter passes [nil] for the constant labels. *)
Definition NewDesc (fqName help : string) (variableLabels : list string) : Desc :=
  {| fqName := fqName; help := help; variableLabels := variableLabels |}.

Record Metric : Type := {
  desc : Desc;
  valType : ValueType;
  val : float64;
  labelValues : list string
}.

(** [NewConstMetric] refuses label values whose number differs from the
    number of variable labels of the descriptor. *)
Definition NewConstMetric (d : Desc) (t : ValueType) (v : float64)
    (labels : list string) : option Metric :=
  if Nat.eqb (List.length (variableLabels d)) (List.length labels)
  then Some {| desc := d; valType := t; val := v; labelValues := labels |}
  else None.

Fixpoint strings_eqb (a b : list string) : bool :=
  match a, b with
  | [], [] => true
  | x :: a', y :: b' => (x =? y)%string && strings_eqb a' b'
  | _, _ => false
  end.

Definition Desc_eqb (a b : Desc) : bool :=
  (fqName a =? fqName b)%string && (help a =? help b)%string
  && strings_eqb (variableLabels a) (variableLabels b).

End prometheus.

(** ** libvirt-go *)

Module libvirt.

(** Handles are pointers into the C library. *)
Record Connect : Type := { conn_ptr : Z }.
Record Domain : Type := { ptr : Z }.

Definition Domain_eqb (a b : Domain) : bool := (ptr a =? ptr b)%Z.

Definition CONNECT_LIST_DOMAINS_ACTIVE : Z := 1.

(** [VIR_ERR_NO_SUPPORT]: the server does not implement the call. *)
Definition ERR_NO_SUPPORT : Z := 3.

Record DomainBlockStats : Type := {
  RdBytesSet : bool;
  RdBytes : Z;
  RdReqSet : bool;
  RdReq : Z;
  RdTotalTimesSet : bool;
  RdTotalTimes : Z;
  WrBytesSet : bool;
  WrBytes : Z;
  WrReqSet : bool;
  WrReq : Z;
  WrTotalTimesSet : bool;
  WrTotalTimes : Z;
  FlushReqSet : bool;
  FlushReq : Z;
  FlushTotalTimesSet : bool;
  FlushTotalTimes : Z;
  ErrsSet : bool;
  Errs : Z
}.

(** The operations of the client that the exporter uses, over a hypervisor
    state [W].  [Close] and [Free] return a status that the exporter
    ignores. *)
Record Client (W : Type) : Type := {
  NewConnect : string -> W -> result Connect * W;
  Close : Connect -> W -> W;
  ListAllDomains : Connect -> Z -> W -> result (list Domain) * W;
  ListDomains : Connect -> W -> result (list Z) * W;
  LookupDomainById : Connect -> Z -> W -> result Domain * W;
  GetName : Domain -> W -> result string * W;
  GetXMLDesc : Domain -> Z -> W -> result string * W;
  BlockStats : Domain -> string -> W -> result DomainBlockStats * W;
  Free : Domain -> W -> W
}.
Arguments NewConnect {W}.
Arguments Close {W}.
Arguments ListAllDomains {W}.
Arguments ListDomains {W}.
Arguments LookupDomainById {W}.
Arguments GetName {W}.
Arguments GetXMLDesc {W}.
Arguments BlockStats {W}.
Arguments Free {W}.

End libvirt.

(** ** The package libvirt_schema *)

Module libvirt_schema.

(** Modelled from the spec: the struct declarations of the package
    [./libvirt_schema], which the exporter imports: a domain descriptor
    holds an ordered sequence of disks, each with a source file (possibly
    empty) and a target device name.  The field paths are those the source
    uses: [desc.Devices.Disks], [disk.Source.File], [disk.Target.Device]. *)
Record DiskSource : Type := { File : string }.
Record DiskTarget : Type := { Device : string }.
Record Disk : Type := { Source : DiskSource; Target : DiskTarget }.
Record DeviceList : Type := { Disks : list Disk }.
Record Domain : Type := { Devices : DeviceList }.

End libvirt_schema.

(** ** The metric descriptors *)

Import prometheus.

Definition block_labels : list string := ["domain"; "source_file"; "target_device"].

Definition libvirtUpDesc : Desc :=
  NewDesc (BuildFQName "libvirt" "" "up")
    "Whether scraping libvirt's metrics was successful." [].

Definition libvirtBlockRdBytesDesc : Desc :=
  NewDesc (BuildFQName "libvirt" "block_stats" "read_bytes_total")
    "Number of bytes read from a block device, in bytes." block_labels.
Definition libvirtBlockRdReqDesc : Desc :=
  NewDesc (BuildFQName "libvirt" "block_stats" "read_requests_total")
    "Number of read requests from a block device." block_labels.
Definition libvirtBlockRdTotalTimesDesc : Desc :=
  NewDesc (BuildFQName "libvirt" "block_stats" "read_seconds_total")
    "Amount of time spent reading from a block device, in seconds." block_labels.
Definition libvirtBlockWrBytesDesc : Desc :=
  NewDesc (BuildFQName "libvirt" "block_stats" "write_bytes_total")
    "Number of bytes written from a block device, in bytes." block_labels.
Definition libvirtBlockWrReqDesc : Desc :=
  NewDesc (BuildFQName "libvirt" "block_stats" "write_requests_total")
    "Number of write requests from a block device." block_labels.
Definition libvirtBlockWrTotalTimesDesc : Desc :=
  NewDesc (BuildFQName "libvirt" "block_stats" "write_seconds_total")
    "Amount of time spent writing from a block device, in seconds." block_labels.
Definition libvirtBlockFlushReqDesc : Desc :=
  NewDesc (BuildFQName "libvirt" "block_stats" "flush_requests_total")
    "Number of flush requests from a block device." block_labels.
Definition libvirtBlockFlushTotalTimesDesc : Desc :=
  NewDesc (BuildFQName "libvirt" "block_stats" "flush_seconds_total")
    "Amount of time spent flushing of a block device, in seconds." block_labels.

(** ** The program state *)

(** A call made to a collaborator, with its arguments and what it returned. *)
Inductive Call : Type :=
| CallNewConnect (uri : string) (r : result libvirt.Connect)
| CallClose (conn : libvirt.Connect)
| CallListAllDomains (conn : libvirt.Connect) (flags : Z) (r : result (list libvirt.Domain))
| CallListDomains (conn : libvirt.Connect) (r : result (list Z))
| CallLookupDomainById (conn : libvirt.Connect) (id : Z) (r : result libvirt.Domain)
| CallGetName (domain : libvirt.Domain) (r : result string)
| CallGetXMLDesc (domain : libvirt.Domain) (flags : Z) (r : result string)
| CallUnmarshal (data : string) (r : result libvirt_schema.Domain)
| CallBlockStats (domain : libvirt.Domain) (path : string) (r : result libvirt.DomainBlockStats)
| CallFree (domain : libvirt.Domain).

(** A line written with [log.Printf]: the format and its argument. *)
Record LogEntry : Type := { format : string; arg : error }.

(** The addressable local variables of [CollectFromLibvirt]: the variable
    [domain] of its first range loop, which is one variable for the whole
    loop and is assigned at every iteration. *)
Inductive Var : Type := var_domain.

Definition Var_eqb (x y : Var) : bool :=
  match x, y with
  | var_domain, var_domain => true
  end.

(** A deferred call with its receiver as evaluated by the [defer] statement:
    the pointer [conn] for [conn.Close()], the address [&domain] for
    [domain.Free()], whose method has a pointer receiver. *)
Inductive Deferred : Type :=
| defer_Close (conn : libvirt.Connect)
| defer_Free (addr : Var).

(** The frame of a running function: its addressable locals and its deferred
    calls, the latest first. *)
Record Frame : Type := {
  locals : Var -> libvirt.Domain;
  defers : list Deferred
}.

Definition new_frame : Frame :=
  {| locals := fun _ => {| libvirt.ptr := 0 |}; defers := [] |}.

(** The outcome of running Go code: a normal return or a panic. *)
Inductive Outcome (A : Type) : Type :=
| Return (a : A)
| Panic (v : string).
Arguments Return {A} a.
Arguments Panic {A} v.

(** The collaborators the exporter runs against: the client library over a
    hypervisor state [W], and encoding/xml's [Unmarshal] into a
    [libvirt_schema.Domain]. *)
Class Collaborators (W : Type) : Type := {
  client : libvirt.Client W;
  Unmarshal : string -> result libvirt_schema.Domain
}.

Section Exporter.

Context {W : Type} {env : Collaborators W}.

Record State : Type := {
  world : W;
  ch : list Metric;
  logged : list LogEntry;
  calls : list Call;
  frame : Frame
}.

Definition init (w : W) : State :=
  {| world := w; ch := []; logged := []; calls := []; frame := new_frame |}.

Definition set_world (w : W) (s : State) : State :=
  {| world := w; ch := ch s; logged := logged s; calls := calls s; frame := frame s |}.
Definition set_frame (f : Frame) (s : State) : State :=
  {| world := world s; ch := ch s; logged := logged s; calls := calls s; frame := f |}.
Definition record (c : Call) (s : State) : State :=
  {| world := world s; ch := ch s; logged := logged s; calls := calls s ++ [c];
     frame := frame s |}.
Definition push (m : Metric) (s : State) : State :=
  {| world := world s; ch := ch s ++ [m]; logged := logged s; calls := calls s;
     frame := frame s |}.
Definition write_log (l : LogEntry) (s : State) : State :=
  {| world := world s; ch := ch s; logged := logged s ++ [l]; calls := calls s;
     frame := frame s |}.

(** Go code: a state transformer that returns or panics. *)
Definition Go (A : Type) : Type := State -> Outcome A * State.

Definition ret {A : Type} (a : A) : Go A := fun s => (Return a, s).

Definition bind {A B : Type} (m : Go A) (k : A -> Go B) : Go B :=
  fun s =>
    match m s with
    | (Return a, s') => k a s'
    | (Panic v, s') => (Panic v, s')
    end.

Notation "x <- m ;; k" := (bind m (fun x => k))
  (at level 61, m at next level, right associativity).
Notation "m ;; k" := (bind m (fun _ => k))
  (at level 61, right associativity).

(** *** Calls to the collaborators *)

Definition call {A : Type} (op : W -> A * W) (ev : A -> Call) : Go A :=
  fun s => let '(a, w) := op (world s) in (Return a, record (ev a) (set_world w s)).

Definition call_void (op : W -> W) (ev : Call) : Go unit :=
  fun s => (Return tt, record ev (set_world (op (world s)) s)).

Definition NewConnect (uri : string) : Go (result libvirt.Connect) :=
  call (libvirt.NewConnect client uri) (CallNewConnect uri).
Definition Connect_Close (conn : libvirt.Connect) : Go unit :=
  call_void (libvirt.Close client conn) (CallClose conn).
Definition Connect_ListAllDomains (conn : libvirt.Connect) (flags : Z)
    : Go (result (list libvirt.Domain)) :=
  call (libvirt.ListAllDomains client conn flags) (CallListAllDomains conn flags).
Definition Connect_ListDomains (conn : libvirt.Connect) : Go (result (list Z)) :=
  call (libvirt.ListDomains client conn) (CallListDomains conn).
Definition Connect_LookupDomainById (conn : libvirt.Connect) (id : Z)
    : Go (result libvirt.Domain) :=
  call (libvirt.LookupDomainById client conn id) (CallLookupDomainById conn id).
Definition Domain_GetName (domain : libvirt.Domain) : Go (result string) :=
  call (libvirt.GetName client domain) (CallGetName domain).
Definition Domain_GetXMLDesc (domain : libvirt.Domain) (flags : Z) : Go (result string) :=
  call (libvirt.GetXMLDesc client domain flags) (CallGetXMLDesc domain flags).
Definition Domain_BlockStats (domain : libvirt.Domain) (path : string)
    : Go (result libvirt.DomainBlockStats) :=
  call (libvirt.BlockStats client domain path) (CallBlockStats domain path).
Definition Domain_Free (domain : libvirt.Domain) : Go unit :=
  call_void (libvirt.Free client domain) (CallFree domain).
Definition xml_Unmarshal (data : string) : Go (result libvirt_schema.Domain) :=
  call (fun w => (Unmarshal data, w)) (CallUnmarshal data).

(** [ch <- m] *)
Definition send (m : Metric) : Go unit := fun s => (Return tt, push m s).

(** [prometheus.MustNewConstMetric] panics where [NewConstMetric] fails. *)
Definition MustNewConstMetric (d : Desc) (t : ValueType) (v : float64)
    (labels : list string) : Go Metric :=
  fun s =>
    match NewConstMetric d t v labels with
    | Some m => (Return m, s)
    | None => (Panic "inconsistent label cardinality", s)
    end.

Definition log_Printf (fmt : string) (err : error) : Go unit :=
  fun s => (Return tt, write_log {| format := fmt; arg := err |} s).

(** *** Frames and deferred calls *)

(** [x = d] on an addressable local. *)
Definition assign (x : Var) (d : libvirt.Domain) : Go unit :=
  fun s => (Return tt,
            set_frame {| locals := fun y => if Var_eqb x y then d else locals (frame s) y;
                         defers := defers (frame s) |} s).

Definition defer (d : Deferred) : Go unit :=
  fun s => (Return tt,
            set_frame {| locals := locals (frame s); defers := d :: defers (frame s) |} s).

(** Running one deferred call: [Free] reads its receiver through the
    address it was given, at the time it runs. *)
Definition run_deferred (d : Deferred) (s : State) : State :=
  match d with
  | defer_Close conn => snd (Connect_Close conn s)
  | defer_Free addr => snd (Domain_Free (locals (frame s) addr) s)
  end.

(** A function call: the body runs in a fresh frame; when it returns or
    panics its deferred calls run, the latest first, and the frame of the
    caller comes back. *)
Definition func {A : Type} (body : Go A) : Go A :=
  fun s =>
    let '(r, s1) := body (set_frame new_frame s) in
    let s2 := fold_left (fun st d => run_deferred d st) (defers (frame s1)) s1 in
    (r, set_frame (frame s) s2).

(** *** CollectDomain *)

Import libvirt_schema.

(** The body of the loop over the disks, after the statistics were
    obtained: one guarded send per counter, in the order of the source. *)
Definition report_block_stats (domainName : string) (disk : Disk)
    (blockStats : libvirt.DomainBlockStats) : Go unit :=
  (if libvirt.RdBytesSet blockStats then
     m <- MustNewConstMetric libvirtBlockRdBytesDesc CounterValue
            (float64_of_int (libvirt.RdBytes blockStats))
            [domainName; File (Source disk); Device (Target disk)] ;;
     send m
   else ret tt) ;;
  (if libvirt.RdReqSet blockStats then
     m <- MustNewConstMetric libvirtBlockRdReqDesc CounterValue
            (float64_of_int (libvirt.RdReq blockStats))
            [domainName; File (Source disk); Device (Target disk)] ;;
     send m
   else ret tt) ;;
  (if libvirt.RdTotalTimesSet blockStats then
     m <- MustNewConstMetric libvirtBlockRdTotalTimesDesc CounterValue
            (float64_div (float64_of_int (libvirt.RdTotalTimes blockStats)) const_1e9)
            [domainName; File (Source disk); Device (Target disk)] ;;
     send m
   else ret tt) ;;
  (if libvirt.WrBytesSet blockStats then
     m <- MustNewConstMetric libvirtBlockWrBytesDesc CounterValue
            (float64_of_int (libvirt.WrBytes blockStats))
            [domainName; File (Source disk); Device (Target disk)] ;;
     send m
   else ret tt) ;;
  (if libvirt.WrReqSet blockStats then
     m <- MustNewConstMetric libvirtBlockWrReqDesc CounterValue
            (float64_of_int (libvirt.WrReq blockStats))
            [domainName; File (Source disk); Device (Target disk)] ;;
     send m
   else ret tt) ;;
  (if libvirt.WrTotalTimesSet blockStats then
     m <- MustNewConstMetric libvirtBlockWrTotalTimesDesc CounterValue
            (float64_div (float64_of_int (libvirt.WrTotalTimes blockStats)) const_1e9)
            [domainName; File (Source disk); Device (Target disk)] ;;
     send m
   else ret tt) ;;
  (if libvirt.FlushReqSet blockStats then
     m <- MustNewConstMetric libvirtBlockFlushReqDesc CounterValue
            (float64_of_int (libvirt.FlushReq blockStats))
            [domainName; File (Source disk); Device (Target disk)] ;;
     send m
   else ret tt) ;;
  (if libvirt.FlushTotalTimesSet blockStats then
     m <- MustNewConstMetric libvirtBlockFlushTotalTimesDesc CounterValue
            (float64_div (float64_of_int (libvirt.FlushTotalTimes blockStats)) const_1e9)
            [domainName; File (Source disk); Device (Target disk)] ;;
     send m
   else ret tt).

(** [for _, disk := range desc.Devices.Disks]: the result is the error the
    loop returns with, or [None] when it runs to its end. *)
Fixpoint range_Disks (domain : libvirt.Domain) (domainName : string)
    (disks : list Disk) : Go (option error) :=
  match disks with
  | [] => ret None
  | disk :: rest =>
      r <- Domain_BlockStats domain (Device (Target disk)) ;;
      match r with
      | Err err => ret (Some err)
      | Ok blockStats =>
          report_block_stats domainName disk blockStats ;;
          range_Disks domain domainName rest
      end
  end.

Definition CollectDomain (domain : libvirt.Domain) : Go (option error) :=
  r <- Domain_GetName domain ;;
  match r with
  | Err err => ret (Some err)
  | Ok domainName =>
      r <- Domain_GetXMLDesc domain 0 ;;
      match r with
      | Err err => ret (Some err)
      | Ok xmlDesc =>
          r <- xml_Unmarshal xmlDesc ;;
          match r with
          | Err err => ret (Some err)
          | Ok desc => range_Disks domain domainName (Disks (Devices desc))
          end
      end
  end.

(** *** CollectFromLibvirt *)

(** [for _, domain := range domains { defer domain.Free() }] *)
Fixpoint range_defer_Free (domains : list libvirt.Domain) : Go unit :=
  match domains with
  | [] => ret tt
  | domain :: rest =>
      assign var_domain domain ;;
      defer (defer_Free var_domain) ;;
      range_defer_Free rest
  end.

(** [for _, domain := range domains { err = CollectDomain(ch, &domain) ... }]:
    the variable [domain] of this loop is another one than that of the first
    loop; [CollectDomain] reads it, through the pointer, before the loop
    assigns it again, so that it is passed here by value. *)
Fixpoint range_CollectDomain (domains : list libvirt.Domain) : Go (option error) :=
  match domains with
  | [] => ret None
  | domain :: rest =>
      err <- CollectDomain domain ;;
      match err with
      | Some e => ret (Some e)
      | None => range_CollectDomain rest
      end
  end.

(** [for _, id := range domainIds { ... }] *)
Fixpoint range_domainIds (conn : libvirt.Connect) (domainIds : list Z)
    : Go (option error) :=
  match domainIds with
  | [] => ret None
  | id :: rest =>
      r <- Connect_LookupDomainById conn id ;;
      match r with
      | Ok domain =>
          err <- CollectDomain domain ;;
          Domain_Free domain ;;
          match err with
          | Some e => ret (Some e)
          | None => range_domainIds conn rest
          end
      | Err _ => range_domainIds conn rest
      end
  end.

Definition CollectFromLibvirt_body (uri : string) : Go (option error) :=
  r <- NewConnect uri ;;
  match r with
  | Err err => ret (Some err)
  | Ok conn =>
      defer (defer_Close conn) ;;
      r <- Connect_ListAllDomains conn libvirt.CONNECT_LIST_DOMAINS_ACTIVE ;;
      match r with
      | Ok domains =>
          range_defer_Free domains ;;
          range_CollectDomain domains
      | Err _ =>
          r <- Connect_ListDomains conn ;;
          match r with
          | Err err => ret (Some err)
          | Ok domainIds => range_domainIds conn domainIds
          end
      end
  end.

Definition CollectFromLibvirt (uri : string) : Go (option error) :=
  func (CollectFromLibvirt_body uri).

(** *** The exporter *)

Record LibvirtExporter : Type := { uri : string }.

Definition Collect (e : LibvirtExporter) : Go unit :=
  err <- CollectFromLibvirt (uri e) ;;
  match err with
  | None =>
      m <- MustNewConstMetric libvirtUpDesc GaugeValue const_1 [] ;;
      send m
  | Some err =>
      log_Printf "Failed to scrape metrics: %s" err ;;
      m <- MustNewConstMetric libvirtUpDesc GaugeValue const_0 [] ;;
      send m
  end.

End Exporter.

(** ** Observing a run *)

Section Observations.

Context {W : Type} {A : Type}.

(** What a piece of code returns from a state, the calls it makes, the
    samples it sends and the log lines it writes. *)
Definition outcome (m : @Go W A) (s : State) : Outcome A := fst (m s).
Definition trace (m : @Go W A) (s : State) : list Call :=
  skipn (List.length (calls s)) (calls (snd (m s))).
Definition sent (m : @Go W A) (s : State) : list Metric :=
  skipn (List.length (ch s)) (ch (snd (m s))).
Definition written (m : @Go W A) (s : State) : list LogEntry :=
  skipn (List.length (logged s)) (logged (snd (m s))).

End Observations.

(** The eight counters of a block statistics record that the exporter
    maps, with the flag, the raw value and the descriptor of each. *)
Inductive Counter : Type :=
| ReadBytes | ReadRequests | ReadTime
| WriteBytes | WriteRequests | WriteTime
| FlushRequests | FlushTime.

Definition counters : list Counter :=
  [ReadBytes; ReadRequests; ReadTime; WriteBytes; WriteRequests; WriteTime;
   FlushRequests; FlushTime].

Definition flag (c : Counter) (st : libvirt.DomainBlockStats) : bool :=
  match c with
  | ReadBytes => libvirt.RdBytesSet st
  | ReadRequests => libvirt.RdReqSet st
  | ReadTime => libvirt.RdTotalTimesSet st
  | WriteBytes => libvirt.WrBytesSet st
  | WriteRequests => libvirt.WrReqSet st
  | WriteTime => libvirt.WrTotalTimesSet st
  | FlushRequests => libvirt.FlushReqSet st
  | FlushTime => libvirt.FlushTotalTimesSet st
  end.

Definition raw (c : Counter) (st : libvirt.DomainBlockStats) : Z :=
  match c with
  | ReadBytes => libvirt.RdBytes st
  | ReadRequests => libvirt.RdReq st
  | ReadTime => libvirt.RdTotalTimes st
  | WriteBytes => libvirt.WrBytes st
  | WriteRequests => libvirt.WrReq st
  | WriteTime => libvirt.WrTotalTimes st
  | FlushRequests => libvirt.FlushReq st
  | FlushTime => libvirt.FlushTotalTimes st
  end.

Definition desc_of (c : Counter) : Desc :=
  match c with
  | ReadBytes => libvirtBlockRdBytesDesc
  | ReadRequests => libvirtBlockRdReqDesc
  | ReadTime => libvirtBlockRdTotalTimesDesc
  | WriteBytes => libvirtBlockWrBytesDesc
  | WriteRequests => libvirtBlockWrReqDesc
  | WriteTime => libvirtBlockWrTotalTimesDesc
  | FlushRequests => libvirtBlockFlushReqDesc
  | FlushTime => libvirtBlockFlushTotalTimesDesc
  end.

Definition is_time (c : Counter) : bool :=
  match c with
  | ReadTime | WriteTime | FlushTime => true
  | _ => false
  end.

(** The number of samples of a descriptor in a list of samples. *)
Definition count_desc (d : Desc) (ms : list Metric) : nat :=
  List.length (filter (fun m => Desc_eqb (desc m) d) ms).

(** The samples one disk gives rise to: for each counter whose flag is set,
    in the order of [counters], one sample. *)
Definition block_sample (domainName : string) (disk : libvirt_schema.Disk)
    (st : libvirt.DomainBlockStats) (c : Counter) : Metric :=
  {| desc := desc_of c;
     valType := CounterValue;
     val := if is_time c
            then float64_div (float64_of_int (raw c st)) const_1e9
            else float64_of_int (raw c st);
     labelValues := [domainName;
                     libvirt_schema.File (libvirt_schema.Source disk);
                     libvirt_schema.Device (libvirt_schema.Target disk)] |}.

Definition block_samples (domainName : string) (disk : libvirt_schema.Disk)
    (st : libvirt.DomainBlockStats) : list Metric :=
  flat_map (fun c => if flag c st then [block_sample domainName disk st c] else [])
           counters.

(** The health gauge with a given value. *)
Definition up_sample (v : float64) : Metric :=
  {| desc := libvirtUpDesc; valType := GaugeValue; val := v; labelValues := [] |}.

(** *** Reading a sequence of calls *)

(** The calls that give a handle or a connection back. *)
Definition is_release (c : Call) : bool :=
  match c with
  | CallFree _ | CallClose _ => true
  | _ => false
  end.

(** The error of a failed step of [CollectDomain]: name resolution,
    descriptor fetch, parsing or a statistics query. *)
Definition collect_failure (c : Call) : option error :=
  match c with
  | CallGetName _ (Err err) => Some err
  | CallGetXMLDesc _ _ (Err err) => Some err
  | CallUnmarshal _ (Err err) => Some err
  | CallBlockStats _ _ (Err err) => Some err
  | _ => None
  end.

(** The error of a step whose failure [CollectFromLibvirt] returns: opening
    the connection, listing the identifiers, or a step of [CollectDomain]. *)
Definition hard_failure (c : Call) : option error :=
  match c with
  | CallNewConnect _ (Err err) => Some err
  | CallListDomains _ (Err err) => Some err
  | _ => collect_failure c
  end.

(** The statistics records the queries returned, in order. *)
Definition stats_returned (t : list Call) : list libvirt.DomainBlockStats :=
  flat_map (fun c => match c with CallBlockStats _ _ (Ok st) => [st] | _ => [] end) t.

(** The devices whose statistics were queried, in order. *)
Definition stats_queried (t : list Call) : list string :=
  flat_map (fun c => match c with CallBlockStats _ path _ => [path] | _ => [] end) t.

(** The identifiers looked up, and the handles the lookups returned. *)
Definition lookups (t : list Call) : list Z :=
  flat_map (fun c => match c with CallLookupDomainById _ id _ => [id] | _ => [] end) t.

Definition looked_up (t : list Call) : list libvirt.Domain :=
  flat_map (fun c => match c with CallLookupDomainById _ _ (Ok d) => [d] | _ => [] end) t.

(** The handles [CollectDomain] was run on: it starts with [GetName], which
    it calls once. *)
Definition collected (t : list Call) : list libvirt.Domain :=
  flat_map (fun c => match c with CallGetName d _ => [d] | _ => [] end) t.

(** The handles released and the connections closed, in order. *)
Definition freed (t : list Call) : list libvirt.Domain :=
  flat_map (fun c => match c with CallFree d => [d] | _ => [] end) t.

Definition closed (t : list Call) : list libvirt.Connect :=
  flat_map (fun c => match c with CallClose c => [c] | _ => [] end) t.

(** Whether the identifier listing of the fallback tier was called. *)
Definition fallback_taken (t : list Call) : bool :=
  existsb (fun c => match c with CallListDomains _ _ => true | _ => false end) t.

(** How often a handle occurs in a list of handles. *)
Definition occurrences (d : libvirt.Domain) (l : list libvirt.Domain) : nat :=
  List.length (filter (libvirt.Domain_eqb d) l).

(** ** The shape of runs

    The calls and the samples of a run, by the structure of the code: one
    judgement per loop and per function.  Samples come in chunks, one chunk
    per statistics record obtained. *)

Definition device (disk : libvirt_schema.Disk) : string :=
  libvirt_schema.Device (libvirt_schema.Target disk).

Inductive DisksRun (domain : libvirt.Domain) (name : string)
  : list libvirt_schema.Disk -> option error -> list Call -> list (list Metric) -> Prop :=
| DisksRun_done :
    DisksRun domain name [] None [] []
| DisksRun_fail disk rest err :
    DisksRun domain name (disk :: rest) (Some err)
      [CallBlockStats domain (device disk) (Err err)] []
| DisksRun_next disk rest st r t chunks :
    DisksRun domain name rest r t chunks ->
    DisksRun domain name (disk :: rest) r
      (CallBlockStats domain (device disk) (Ok st) :: t)
      (block_samples name disk st :: chunks).

Inductive DomainRun (domain : libvirt.Domain)
  : option error -> list Call -> list (list Metric) -> Prop :=
| DomainRun_name err :
    DomainRun domain (Some err) [CallGetName domain (Err err)] []
| DomainRun_xml name err :
    DomainRun domain (Some err)
      [CallGetName domain (Ok name); CallGetXMLDesc domain 0 (Err err)] []
| DomainRun_parse name xml err :
    DomainRun domain (Some err)
      [CallGetName domain (Ok name); CallGetXMLDesc domain 0 (Ok xml);
       CallUnmarshal xml (Err err)] []
| DomainRun_disks name xml desc r t chunks :
    DisksRun domain name (libvirt_schema.Disks (libvirt_schema.Devices desc)) r t chunks ->
    DomainRun domain r
      (CallGetName domain (Ok name) :: CallGetXMLDesc domain 0 (Ok xml)
       :: CallUnmarshal xml (Ok desc) :: t)
      chunks.

Inductive DomainsRun
  : list libvirt.Domain -> option error -> list Call -> list (list Metric) -> Prop :=
| DomainsRun_done :
    DomainsRun [] None [] []
| DomainsRun_fail domain rest err t chunks :
    DomainRun domain (Some err) t chunks ->
    DomainsRun (domain :: rest) (Some err) t chunks
| DomainsRun_next domain rest t1 chunks1 r t2 chunks2 :
    DomainRun domain None t1 chunks1 ->
    DomainsRun rest r t2 chunks2 ->
    DomainsRun (domain :: rest) r (t1 ++ t2) (chunks1 ++ chunks2).

Inductive IdsRun (conn : libvirt.Connect)
  : list Z -> option error -> list Call -> list (list Metric) -> Prop :=
| IdsRun_done :
    IdsRun conn [] None [] []
| IdsRun_skip id rest err r t chunks :
    IdsRun conn rest r t chunks ->
    IdsRun conn (id :: rest) r (CallLookupDomainById conn id (Err err) :: t) chunks
| IdsRun_fail id rest domain err t chunks :
    DomainRun domain (Some err) t chunks ->
    IdsRun conn (id :: rest) (Some err)
      (CallLookupDomainById conn id (Ok domain) :: t ++ [CallFree domain]) chunks
| IdsRun_next id rest domain t1 chunks1 r t2 chunks2 :
    DomainRun domain None t1 chunks1 ->
    IdsRun conn rest r t2 chunks2 ->
    IdsRun conn (id :: rest) r
      (CallLookupDomainById conn id (Ok domain) :: t1 ++ CallFree domain :: t2)
      (chunks1 ++ chunks2).

(** The value of the range variable [domain] once the first loop of the bulk
    tier is over: the last handle of the listing. *)
Definition last_handle (domains : list libvirt.Domain) : libvirt.Domain :=
  last domains {| libvirt.ptr := 0 |}.

Inductive FleetRun (uri : string)
  : option error -> list Call -> list (list Metric) -> Prop :=
| FleetRun_open err :
    FleetRun uri (Some err) [CallNewConnect uri (Err err)] []
| FleetRun_bulk conn domains r t chunks :
    DomainsRun domains r t chunks ->
    FleetRun uri r
      (CallNewConnect uri (Ok conn)
       :: CallListAllDomains conn libvirt.CONNECT_LIST_DOMAINS_ACTIVE (Ok domains)
       :: t ++ repeat (CallFree (last_handle domains)) (List.length domains)
            ++ [CallClose conn])
      chunks
| FleetRun_ids_fail conn err0 err :
    FleetRun uri (Some err)
      [CallNewConnect uri (Ok conn);
       CallListAllDomains conn libvirt.CONNECT_LIST_DOMAINS_ACTIVE (Err err0);
       CallListDomains conn (Err err);
       CallClose conn] []
| FleetRun_ids conn err0 ids r t chunks :
    IdsRun conn ids r t chunks ->
    FleetRun uri r
      (CallNewConnect uri (Ok conn)
       :: CallListAllDomains conn libvirt.CONNECT_LIST_DOMAINS_ACTIVE (Err err0)
       :: CallListDomains conn (Ok ids)
       :: t ++ [CallClose conn])
      chunks.

(** A run from [s] to [s']: it made the calls [t], sent the samples [ms],
    wrote nothing to the log. *)
Definition extends {W : Type} (s s' : @State W) (t : list Call) (ms : list Metric) : Prop :=
  calls s' = calls s ++ t /\ ch s' = ch s ++ ms /\ logged s' = logged s.

(** ** Scripted collaborators *)

(** A hypervisor without state whose answers are given by tables. *)
Record Script : Type := {
  on_NewConnect : result libvirt.Connect;
  on_ListAllDomains : result (list libvirt.Domain);
  on_ListDomains : result (list Z);
  on_LookupDomainById : Z -> result libvirt.Domain;
  on_GetName : libvirt.Domain -> result string;
  on_GetXMLDesc : libvirt.Domain -> result string;
  on_Unmarshal : string -> result libvirt_schema.Domain;
  on_BlockStats : libvirt.Domain -> string -> result libvirt.DomainBlockStats
}.

Definition scripted (sc : Script) : Collaborators unit :=
  {| client :=
       {| libvirt.NewConnect := fun _ w => (on_NewConnect sc, w);
          libvirt.Close := fun _ w => w;
          libvirt.ListAllDomains := fun _ _ w => (on_ListAllDomains sc, w);
          libvirt.ListDomains := fun _ w => (on_ListDomains sc, w);
          libvirt.LookupDomainById := fun _ id w => (on_LookupDomainById sc id, w);
          libvirt.GetName := fun d w => (on_GetName sc d, w);
          libvirt.GetXMLDesc := fun d _ w => (on_GetXMLDesc sc d, w);
          libvirt.BlockStats := fun d path w => (on_BlockStats sc d path, w);
          libvirt.Free := fun _ w => w |};
     Unmarshal := on_Unmarshal sc |}.

Definition the_conn : libvirt.Connect := {| libvirt.conn_ptr := 1 |}.
Definition handle (n : Z) : libvirt.Domain := {| libvirt.ptr := n |}.
Definition the_exporter : LibvirtExporter := {| uri := "qemu:///system" |}.

Definition disk_of (file dev : string) : libvirt_schema.Disk :=
  {| libvirt_schema.Source := {| libvirt_schema.File := file |};
     libvirt_schema.Target := {| libvirt_schema.Device := dev |} |}.

Definition descriptor (disks : list libvirt_schema.Disk) : libvirt_schema.Domain :=
  {| libvirt_schema.Devices := {| libvirt_schema.Disks := disks |} |}.

Definition no_stats : libvirt.DomainBlockStats :=
  {| libvirt.RdBytesSet := false; libvirt.RdBytes := 0;
     libvirt.RdReqSet := false; libvirt.RdReq := 0;
     libvirt.RdTotalTimesSet := false; libvirt.RdTotalTimes := 0;
     libvirt.WrBytesSet := false; libvirt.WrBytes := 0;
     libvirt.WrReqSet := false; libvirt.WrReq := 0;
     libvirt.WrTotalTimesSet := false; libvirt.WrTotalTimes := 0;
     libvirt.FlushReqSet := false; libvirt.FlushReq := 0;
     libvirt.FlushTotalTimesSet := false; libvirt.FlushTotalTimes := 0;
     libvirt.ErrsSet := false; libvirt.Errs := 0 |}.

(** Only the bytes read are reported, and they are 1024. *)
Definition read_1024 : libvirt.DomainBlockStats :=
  {| libvirt.RdBytesSet := true; libvirt.RdBytes := 1024;
     libvirt.RdReqSet := false; libvirt.RdReq := 0;
     libvirt.RdTotalTimesSet := false; libvirt.RdTotalTimes := 0;
     libvirt.WrBytesSet := false; libvirt.WrBytes := 0;
     libvirt.WrReqSet := false; libvirt.WrReq := 0;
     libvirt.WrTotalTimesSet := false; libvirt.WrTotalTimes := 0;
     libvirt.FlushReqSet := false; libvirt.FlushReq := 0;
     libvirt.FlushTotalTimesSet := false; libvirt.FlushTotalTimes := 0;
     libvirt.ErrsSet := false; libvirt.Errs := 0 |}.

(** The read time is reported as 2.5e9 ns, the errors as 7, nothing else. *)
Definition read_time_2500ms : libvirt.DomainBlockStats :=
  {| libvirt.RdBytesSet := false; libvirt.RdBytes := 0;
     libvirt.RdReqSet := false; libvirt.RdReq := 0;
     libvirt.RdTotalTimesSet := true; libvirt.RdTotalTimes := 2500000000;
     libvirt.WrBytesSet := false; libvirt.WrBytes := 0;
     libvirt.WrReqSet := false; libvirt.WrReq := 0;
     libvirt.WrTotalTimesSet := false; libvirt.WrTotalTimes := 0;
     libvirt.FlushReqSet := false; libvirt.FlushReq := 0;
     libvirt.FlushTotalTimesSet := false; libvirt.FlushTotalTimes := 0;
     libvirt.ErrsSet := true; libvirt.Errs := 7 |}.

Definition no_domain : error := VirError 42 10 "Domain not found" 2.
Definition no_support : error :=
  VirError libvirt.ERR_NO_SUPPORT 7 "this function is not supported by the connection driver" 2.
Definition broken_pipe : error := VirError 38 7 "Cannot write data: Broken pipe" 2.
Definition no_device : error := VirError 8 10 "invalid argument: invalid path" 2.
Definition refused : error := VirError 38 7 "Failed to connect socket: Connection refused" 2.

(** One domain "vm1" with the disk vda on /a.img, listed by the bulk tier. *)
Definition vm1_script : Script :=
  {| on_NewConnect := Ok the_conn;
     on_ListAllDomains := Ok [handle 1];
     on_ListDomains := Ok [1%Z];
     on_LookupDomainById := fun _ => Ok (handle 1);
     on_GetName := fun _ => Ok "vm1";
     on_GetXMLDesc := fun _ => Ok "<domain/>";
     on_Unmarshal := fun _ => Ok (descriptor [disk_of "/a.img" "vda"]);
     on_BlockStats := fun _ _ => Ok read_1024 |}.

(** A server without the bulk listing; the identifiers 3, 7 and 9 are
    listed and the domain 7 is gone when it is looked up. *)
Definition fallback_script : Script :=
  {| on_NewConnect := Ok the_conn;
     on_ListAllDomains := Err no_support;
     on_ListDomains := Ok [3; 7; 9]%Z;
     on_LookupDomainById := fun id => if (id =? 7)%Z then Err no_domain else Ok (handle id);
     on_GetName := fun d => Ok (if (libvirt.ptr d =? 3)%Z then "vm3" else "vm9");
     on_GetXMLDesc := fun _ => Ok "<domain/>";
     on_Unmarshal := fun _ => Ok (descriptor [disk_of "/a.img" "vda"]);
     on_BlockStats := fun _ _ => Ok read_1024 |}.

(** One domain with three disks; the statistics of the second cannot be
    had. *)
Definition three_disks_script : Script :=
  {| on_NewConnect := Ok the_conn;
     on_ListAllDomains := Ok [handle 1];
     on_ListDomains := Ok [1%Z];
     on_LookupDomainById := fun _ => Ok (handle 1);
     on_GetName := fun _ => Ok "vm1";
     on_GetXMLDesc := fun _ => Ok "<domain/>";
     on_Unmarshal := fun _ => Ok (descriptor [disk_of "/a.img" "vda"; disk_of "/b.img" "vdb";
                                              disk_of "/c.img" "vdc"]);
     on_BlockStats := fun _ path => if (path =? "vdb")%string then Err no_device
                                    else Ok read_1024 |}.

(** The daemon cannot be reached. *)
Definition unreachable_script : Script :=
  {| on_NewConnect := Err refused;
     on_ListAllDomains := Err refused;
     on_ListDomains := Err refused;
     on_LookupDomainById := fun _ => Err refused;
     on_GetName := fun _ => Err refused;
     on_GetXMLDesc := fun _ => Err refused;
     on_Unmarshal := fun _ => Err (XmlError "EOF");
     on_BlockStats := fun _ _ => Err refused |}.

(** The bulk listing returns two handles; the domains have no disks. *)
Definition two_handles_script : Script :=
  {| on_NewConnect := Ok the_conn;
     on_ListAllDomains := Ok [handle 1; handle 2];
     on_ListDomains := Ok [1; 2]%Z;
     on_LookupDomainById := fun id => Ok (handle id);
     on_GetName := fun d => Ok (if (libvirt.ptr d =? 1)%Z then "vm1" else "vm2");
     on_GetXMLDesc := fun _ => Ok "<domain/>";
     on_Unmarshal := fun _ => Ok (descriptor []);
     on_BlockStats := fun _ _ => Ok no_stats |}.

(** The bulk listing fails on a broken connection, not for want of support
    on the server; the listing of identifiers then answers with none. *)
Definition broken_bulk_script : Script :=
  {| on_NewConnect := Ok the_conn;
     on_ListAllDomains := Err broken_pipe;
     on_ListDomains := Ok [];
     on_LookupDomainById := fun _ => Err no_domain;
     on_GetName := fun _ => Err broken_pipe;
     on_GetXMLDesc := fun _ => Err broken_pipe;
     on_Unmarshal := fun _ => Err (XmlError "EOF");
     on_BlockStats := fun _ _ => Err broken_pipe |}.

(** One domain whose only disk reports a read time. *)
Definition read_time_script : Script :=
  {| on_NewConnect := Ok the_conn;
     on_ListAllDomains := Ok [handle 1];
     on_ListDomains := Ok [1%Z];
     on_LookupDomainById := fun _ => Ok (handle 1);
     on_GetName := fun _ => Ok "vm1";
     on_GetXMLDesc := fun _ => Ok "<domain/>";
     on_Unmarshal := fun _ => Ok (descriptor [disk_of "/a.img" "vda"]);
     on_BlockStats := fun _ _ => Ok read_time_2500ms |}.

(** The calls of [CollectDomain], and those of the loop over the
    identifiers. *)
Definition is_domain_call (c : Call) : bool :=
  match c with
  | CallGetName _ _ | CallGetXMLDesc _ _ _ | CallUnmarshal _ _ | CallBlockStats _ _ _ => true
  | _ => false
  end.

Definition is_ids_call (c : Call) : bool :=
  match c with
  | CallLookupDomainById _ _ _ | CallFree _ => true
  | _ => is_domain_call c
  end.

(** A sequence of calls without a hard failure. *)
Definition clean (t : list Call) : Prop :=
  Forall (fun c => hard_failure c = None) t.

(** The sequence of calls of a run that returned [r]: without a hard failure
    when it returned no error; otherwise the failed call is the only hard
    failure, its error is the one returned, and only releases follow it. *)
Definition fail_fast (r : option error) (t : list Call) : Prop :=
  match r with
  | None => clean t
  | Some err =>
      exists t1 c rel,
        t = t1 ++ c :: rel /\ clean t1 /\ hard_failure c = Some err
        /\ Forall (fun c => is_release c = true) rel
  end.

(** A chunk of samples is what some disk of some domain gives with the
    statistics [st]. *)
Definition chunk_of (chunk : list Metric) (st : libvirt.DomainBlockStats) : Prop :=
  exists name disk, chunk = block_samples name disk st.

(** The value of the health gauge for an outcome of [CollectFromLibvirt]. *)
Definition health (o : Outcome (option error)) : float64 :=
  match o with
  | Return None => const_1
  | _ => const_0
  end.

(** The log lines [Collect] writes for an outcome of [CollectFromLibvirt]. *)
Definition failure_log (o : Outcome (option error)) : list LogEntry :=
  match o with
  | Return (Some err) => [{| format := "Failed to scrape metrics: %s"; arg := err |}]
  | _ => []
  end.

(** The descriptors of the block statistics, as [Describe] lists them. *)
Definition block_descs : list Desc :=
  [libvirtBlockRdBytesDesc; libvirtBlockRdReqDesc; libvirtBlockRdTotalTimesDesc;
   libvirtBlockWrBytesDesc; libvirtBlockWrReqDesc; libvirtBlockWrTotalTimesDesc;
   libvirtBlockFlushReqDesc; libvirtBlockFlushTotalTimesDesc].

(** The call a deferred call makes when it runs in a frame. *)
Definition deferred_call (f : Frame) (d : Deferred) : Call :=
  match d with
  | defer_Close conn => CallClose conn
  | defer_Free addr => CallFree (locals f addr)
  end.

(** A run of [m] from [s] that returns [a] in [s'], having made the calls
    [t] and sent the samples [ms], with the frame as it was. *)
Definition run {W A : Type} (m : @Go W A) (s : State) (a : A) (s' : State)
    (t : list Call) (ms : list Metric) : Prop :=
  m s = (Return a, s') /\ extends s s' t ms /\ frame s' = frame s.

(** Whether an error says that the server does not implement the call. *)
Definition is_no_support (err : error) : bool :=
  match err with
  | VirError code _ _ _ => (code =? libvirt.ERR_NO_SUPPORT)%Z
  | XmlError _ => false
  end.

(** The reading under which only the error [ERR_NO_SUPPORT] of the bulk
    listing leads to the fallback tier: any other error of the bulk listing
    is what [CollectFromLibvirt] returns, and the identifiers are not
    listed. *)
Definition only_no_support_falls_back : Prop :=
  forall (W : Type) (env : Collaborators W) (uri : string) (s : @State W)
         (conn : libvirt.Connect) (flags : Z) (err : error),
    In (CallListAllDomains conn flags (Err err)) (trace (CollectFromLibvirt uri) s) ->
    is_no_support err = false ->
    outcome (CollectFromLibvirt uri) s = Return (Some err)
    /\ fallback_taken (trace (CollectFromLibvirt uri) s) = false.

(** The same, whatever becomes of the frame. *)
Definition returns {W A : Type} (m : @Go W A) (s : State) (a : A) (s' : State)
    (t : list Call) (ms : list Metric) : Prop :=
  m s = (Return a, s') /\ extends s s' t ms.

(** ** The rest of the exporter *)

(** [NewLibvirtExporter]: the exporter for a URI, and no error. *)
Definition NewLibvirtExporter (uri : string) : LibvirtExporter * option error :=
  ({| uri := uri |}, None).

(** [Describe] sends the nine descriptors on its channel of descriptors, in
    the order of the source; the channel is passed explicitly. *)
Definition Describe (e : LibvirtExporter) (ch : list Desc) : list Desc :=
  ch ++ [libvirtUpDesc;
         libvirtBlockRdBytesDesc;
         libvirtBlockRdReqDesc;
         libvirtBlockRdTotalTimesDesc;
         libvirtBlockWrBytesDesc;
         libvirtBlockWrReqDesc;
         libvirtBlockWrTotalTimesDesc;
         libvirtBlockFlushReqDesc;
         libvirtBlockFlushTotalTimesDesc].

(** *** More readings of a sequence of calls *)

(** The URIs connections were opened to. *)
Definition connects (t : list Call) : list string :=
  flat_map (fun c => match c with CallNewConnect uri _ => [uri] | _ => [] end) t.

(** The connection a call is made on, and the handle a call is made on. *)
Definition call_conn (c : Call) : option libvirt.Connect :=
  match c with
  | CallClose conn | CallListAllDomains conn _ _ | CallListDomains conn _
  | CallLookupDomainById conn _ _ => Some conn
  | _ => None
  end.

Definition call_domain (c : Call) : option libvirt.Domain :=
  match c with
  | CallGetName d _ | CallGetXMLDesc d _ _ | CallBlockStats d _ _ | CallFree d => Some d
  | _ => None
  end.

(** The number of handles obtained by lookup and not yet released, after a
    call and after a sequence of calls, and the highest this number gets
    along a sequence of calls. *)
Definition hold (n : nat) (c : Call) : nat :=
  match c with
  | CallLookupDomainById _ _ (Ok _) => S n
  | CallFree _ => Nat.pred n
  | _ => n
  end.

Definition held_after (n : nat) (t : list Call) : nat := fold_left hold t n.

Fixpoint peak_held (n : nat) (t : list Call) : nat :=
  match t with
  | [] => n
  | c :: t' => Nat.max n (peak_held (hold n c) t')
  end.

(** The number of counters, of the eight, whose flag is set in a record. *)
Definition flags_set (st : libvirt.DomainBlockStats) : nat :=
  List.length (filter (fun c => flag c st) counters).

(** The statistics queries that were answered: the device asked for and
    the record returned, in order. *)
Definition stats_answered (t : list Call) : list (string * libvirt.DomainBlockStats) :=
  flat_map (fun c => match c with
                     | CallBlockStats _ path (Ok st) => [(path, st)]
                     | _ => []
                     end) t.

(** One domain "vm1" with two disks: of vda only the bytes read are
    reported, of vdb only the read time. *)
Definition two_disks_script : Script :=
  {| on_NewConnect := Ok the_conn;
     on_ListAllDomains := Ok [handle 1];
     on_ListDomains := Ok [1%Z];
     on_LookupDomainById := fun _ => Ok (handle 1);
     on_GetName := fun _ => Ok "vm1";
     on_GetXMLDesc := fun _ => Ok "<domain/>";
     on_Unmarshal := fun _ => Ok (descriptor [disk_of "/a.img" "vda"; disk_of "/b.img" "vdb"]);
     on_BlockStats := fun _ path => if (path =? "vda")%string then Ok read_1024
                                    else Ok read_time_2500ms |}.

(** Neither tier of the enumeration works. *)
Definition no_listing_script : Script :=
  {| on_NewConnect := Ok the_conn;
     on_ListAllDomains := Err no_support;
     on_ListDomains := Err broken_pipe;
     on_LookupDomainById := fun _ => Err no_domain;
     on_GetName := fun _ => Err broken_pipe;
     on_GetXMLDesc := fun _ => Err broken_pipe;
     on_Unmarshal := fun _ => Err (XmlError "EOF");
     on_BlockStats := fun _ _ => Err broken_pipe |}.

(** * Properties *)

(** ** float64: the conversion of an integer below 2^53 is exact *)

Section Float64.

Local Open Scope Z_scope.

Lemma digits2_pos_bounds m :
2 ^ (Zpos (digits2_pos m) - 1) <= Zpos m < 2 ^ Zpos (digits2_pos m).
Proof.
induction m as [p IH | p IH | ]; simpl digits2_pos.
- rewrite Pos2Z.inj_succ.
  replace (Z.succ (Zpos (digits2_pos p)) - 1) with (Z.succ (Zpos (digits2_pos p) - 1)) by lia.
  rewrite !Z.pow_succ_r by lia. lia.
- rewrite Pos2Z.inj_succ.
  replace (Z.succ (Zpos (digits2_pos p)) - 1) with (Z.succ (Zpos (digits2_pos p) - 1)) by lia.
  rewrite !Z.pow_succ_r by lia. lia.
- simpl. lia.
Qed.

Lemma digits2_pos_small m : Zpos m < 2 ^ 53 -> Zpos (digits2_pos m) <= 53.
Proof.
intros H. destruct (digits2_pos_bounds m) as [L _].
destruct (Z_le_gt_dec (Zpos (digits2_pos m)) 53) as [ | G]; [assumption | exfalso].
assert (2 ^ 53 <= 2 ^ (Zpos (digits2_pos m) - 1)) by (apply Z.pow_le_mono_r; lia).
lia.
Qed.

Lemma iter_xO_value m k : Zpos (Pos.iter xO m k) = Zpos m * 2 ^ Zpos k.
Proof.
induction k as [ | k IH] using Pos.peano_ind.
- simpl. lia.
- rewrite Pos.iter_succ, Pos2Z.inj_succ, Z.pow_succ_r by lia.
  rewrite Pos2Z.inj_xO, IH. lia.
Qed.

Lemma iter_xO_digits m k :
Zpos (digits2_pos (Pos.iter xO m k)) = Zpos (digits2_pos m) + Zpos k.
Proof.
induction k as [ | k IH] using Pos.peano_ind.
- simpl. lia.
- rewrite Pos.iter_succ. simpl digits2_pos. rewrite !Pos2Z.inj_succ, IH. lia.
Qed.

Lemma shr_fexp_exact m e :
Zpos (digits2_pos m) = 53 -> -1074 <= e <= 971 ->
shr_fexp prec emax (Zpos m) e loc_Exact
= ({| shr_m := Zpos m; shr_r := false; shr_s := false |}, e).
Proof.
intros D E.
assert (F : fexp prec emax (Zdigits2 (Zpos m) + e) - e = 0).
{ unfold fexp, emin, prec, emax. simpl Zdigits2. rewrite D. lia. }
unfold shr_fexp. rewrite F. reflexivity.
Qed.

Lemma binary_round_aux_exact s m e :
Zpos (digits2_pos m) = 53 -> -1074 <= e <= 971 ->
binary_round_aux prec emax s (Zpos m) e loc_Exact = S754_finite s m e.
Proof.
intros D E. unfold binary_round_aux.
rewrite shr_fexp_exact by assumption.
cbn [shr_m loc_of_shr_record round_nearest_even].
rewrite shr_fexp_exact by assumption. cbn [shr_m].
destruct (e <=? emax - prec) eqn:L; [reflexivity | ].
unfold emax, prec in L. lia.
Qed.

Lemma binary_round_exact s m :
Zpos m < 2 ^ 53 ->
float64_to_int (binary_round prec emax s m 0) = Some (cond_Zopp s (Zpos m)).
Proof.
intros H. pose proof (digits2_pos_small m H) as D.
assert (P : 0 < Zpos (digits2_pos m)) by lia.
unfold binary_round, shl_align.
replace (fexp prec emax (Zpos (digits2_pos m) + 0) - 0)
  with (Zpos (digits2_pos m) - 53) by (unfold fexp, emin, prec, emax; lia).
destruct (Zpos (digits2_pos m) - 53) as [ | k | k] eqn:K.
- replace (fexp prec emax (Zpos (digits2_pos m) + 0)) with 0
    by (unfold fexp, emin, prec, emax; lia).
  rewrite binary_round_aux_exact by lia.
  cbn [float64_to_int]. rewrite Z.pow_0_r, Z.mul_1_r. reflexivity.
- lia.
- replace (fexp prec emax (Zpos (digits2_pos m) + 0)) with (Zneg k)
    by (unfold fexp, emin, prec, emax; lia).
  rewrite binary_round_aux_exact.
  + cbn [float64_to_int]. rewrite iter_xO_value.
    rewrite Z.mod_mul, Z.div_mul by (apply Z.pow_nonzero; lia).
    reflexivity.
  + rewrite iter_xO_digits. lia.
  + lia.
Qed.

Lemma float64_of_int_exact x :
Z.abs x < 2 ^ 53 -> float64_to_int (float64_of_int x) = Some x.
Proof.
intros H. destruct x as [ | m | m]; [reflexivity | | ].
- apply (binary_round_exact false m). lia.
- apply (binary_round_exact true m). lia.
Qed.

End Float64.

(** ** Runs of the primitives and of sequences *)

Section Runs.

Context {W : Type} {env : Collaborators W}.
Implicit Types s : @State W.

Lemma extends_refl s : extends s s [] [].
Proof. unfold extends. now rewrite !app_nil_r. Qed.

Lemma extends_trans s1 s2 s3 t1 t2 ms1 ms2 :
  extends s1 s2 t1 ms1 -> extends s2 s3 t2 ms2 ->
  extends s1 s3 (t1 ++ t2) (ms1 ++ ms2).
Proof.
  intros (C1 & M1 & L1) (C2 & M2 & L2). unfold extends.
  rewrite C2, C1, M2, M1, L2, L1, !app_assoc. auto.
Qed.

Lemma run_ret {A} (a : A) s : run (ret a) s a s [] [].
Proof. split; [reflexivity | split; [apply extends_refl | reflexivity]]. Qed.

Lemma run_bind {A B} (m : Go A) (k : A -> Go B) s a s1 t1 ms1 b s2 t2 ms2 :
  run m s a s1 t1 ms1 -> run (k a) s1 b s2 t2 ms2 ->
  run (bind m k) s b s2 (t1 ++ t2) (ms1 ++ ms2).
Proof.
  intros (E1 & X1 & F1) (E2 & X2 & F2). split; [ | split].
  - unfold bind. now rewrite E1.
  - eapply extends_trans; eassumption.
  - congruence.
Qed.

Lemma run_call {A} (op : W -> A * W) (ev : A -> Call) s :
  exists s', run (call op ev) s (fst (op (world s))) s' [ev (fst (op (world s)))] [].
Proof.
  unfold run, call. destruct (op (world s)) as [a w]. eexists.
  split; [reflexivity | split; [ | reflexivity]].
  unfold extends; simpl. now rewrite app_nil_r.
Qed.

Lemma run_call_void (op : W -> W) (ev : Call) s :
  exists s', run (call_void op ev) s tt s' [ev] [].
Proof.
  eexists. split; [reflexivity | split; [ | reflexivity]].
  unfold extends; simpl. now rewrite app_nil_r.
Qed.

Lemma run_send m s : exists s', run (send m) s tt s' [] [m].
Proof.
  eexists. split; [reflexivity | split; [ | reflexivity]].
  unfold extends; simpl. now rewrite app_nil_r.
Qed.

(** A run seen from outside. *)
Lemma run_outcome {A} (m : Go A) s a s' t ms :
  run m s a s' t ms -> outcome m s = Return a.
Proof. intros (E & _). unfold outcome. now rewrite E. Qed.

Lemma run_trace {A} (m : Go A) s a s' t ms :
  run m s a s' t ms -> trace m s = t.
Proof.
  intros (E & (C & _) & _). unfold trace. rewrite E. simpl. rewrite C.
  rewrite skipn_app, Nat.sub_diag, skipn_all. reflexivity.
Qed.

Lemma run_sent {A} (m : Go A) s a s' t ms :
  run m s a s' t ms -> sent m s = ms.
Proof.
  intros (E & (_ & C & _) & _). unfold sent. rewrite E. simpl. rewrite C.
  rewrite skipn_app, Nat.sub_diag, skipn_all. reflexivity.
Qed.

Lemma run_written {A} (m : Go A) s a s' t ms :
  run m s a s' t ms -> written m s = [].
Proof.
  intros (E & (_ & _ & C) & _). unfold written. rewrite E. simpl. rewrite C.
  apply skipn_all.
Qed.

(** ** CollectDomain *)

(** One guarded send of a block statistics sample. *)
Lemma run_guarded_send (b : bool) (d : Desc) (v : float64) (labels : list string) s :
  List.length (variableLabels d) = List.length labels ->
  exists s',
    run (if b then bind (MustNewConstMetric d CounterValue v labels) (fun m => send m)
         else ret tt) s tt s' []
        (if b then [{| desc := d; valType := CounterValue; val := v;
                       labelValues := labels |}]
         else []).
Proof.
  intros L. destruct b.
  - unfold bind, MustNewConstMetric, NewConstMetric. rewrite L, Nat.eqb_refl.
    apply run_send.
  - eexists. apply run_ret.
Qed.

Lemma run_guarded_send_then (b : bool) (d : Desc) (v : float64) (labels : list string)
    (k : Go unit) (rest : list Metric) s :
  List.length (variableLabels d) = List.length labels ->
  (forall s1, exists s', run k s1 tt s' [] rest) ->
  exists s',
    run (bind (if b then bind (MustNewConstMetric d CounterValue v labels)
                              (fun m => send m)
               else ret tt) (fun _ => k)) s tt s' []
        ((if b then [{| desc := d; valType := CounterValue; val := v;
                        labelValues := labels |}]
          else []) ++ rest).
Proof.
  intros L K. destruct (run_guarded_send b d v labels s L) as (s1 & R1).
  destruct (K s1) as (s' & R'). exists s'.
  exact (run_bind _ _ _ _ _ _ _ _ _ _ _ R1 R').
Qed.

(** The body of the loop over the disks sends [block_samples]. *)
Lemma run_report_block_stats name disk st s :
  exists s', run (report_block_stats name disk st) s tt s' [] (block_samples name disk st).
Proof.
  unfold report_block_stats, block_samples, counters, flat_map.
  rewrite app_nil_r. revert s.
  do 7 (intros s; apply run_guarded_send_then; [reflexivity | clear s]).
  intros s. apply run_guarded_send. reflexivity.
Qed.

(** The loop over the disks. *)
Lemma run_range_Disks domain name disks :
  forall s, exists r t chunks s',
    run (range_Disks domain name disks) s r s' t (List.concat chunks)
    /\ DisksRun domain name disks r t chunks.
Proof.
  induction disks as [ | disk rest IH]; intros s; simpl.
  - exists None, [], [], s. split; [apply run_ret | constructor].
  - destruct (run_call (libvirt.BlockStats client domain (device disk))
                       (CallBlockStats domain (device disk)) s) as (s1 & R1).
    destruct (fst (libvirt.BlockStats client domain (device disk) (world s)))
      as [st | err].
    + destruct (run_report_block_stats name disk st s1) as (s2 & R2).
      destruct (IH s2) as (r & t & chunks & s3 & R3 & D).
      exists r, (CallBlockStats domain (device disk) (Ok st) :: t),
        (block_samples name disk st :: chunks), s3.
      split; [ | now constructor].
      refine (run_bind _ _ _ _ _ _ _ _ _ _ _ R1 _).
      exact (run_bind _ _ _ _ _ _ _ _ _ _ _ R2 R3).
    + exists (Some err), [CallBlockStats domain (device disk) (Err err)], [], s1.
      split; [ | constructor].
      rewrite <- (app_nil_r [CallBlockStats _ _ _]).
      refine (run_bind _ _ _ _ _ _ _ _ _ _ _ R1 _). apply run_ret.
Qed.

Lemma run_CollectDomain domain :
  forall s, exists r t chunks s',
    run (CollectDomain domain) s r s' t (List.concat chunks)
    /\ DomainRun domain r t chunks.
Proof.
  intros s. unfold CollectDomain.
  destruct (run_call (libvirt.GetName client domain) (CallGetName domain) s)
    as (s1 & R1).
  destruct (fst (libvirt.GetName client domain (world s))) as [name | err].
  2:{ exists (Some err), [CallGetName domain (Err err)], [], s1.
      split; [ | constructor].
      rewrite <- (app_nil_r [CallGetName _ _]).
      refine (run_bind _ _ _ _ _ _ _ _ _ _ _ R1 _). apply run_ret. }
  destruct (run_call (libvirt.GetXMLDesc client domain 0) (CallGetXMLDesc domain 0) s1)
    as (s2 & R2).
  destruct (fst (libvirt.GetXMLDesc client domain 0 (world s1))) as [xml | err].
  2:{ exists (Some err), [CallGetName domain (Ok name); CallGetXMLDesc domain 0 (Err err)],
        [], s2.
      split; [ | constructor].
      refine (run_bind _ _ _ _ _ _ _ _ _ _ _ R1 _).
      rewrite <- (app_nil_r [CallGetXMLDesc _ _ _]).
      refine (run_bind _ _ _ _ _ _ _ _ _ _ _ R2 _). apply run_ret. }
  destruct (run_call (fun w => (Unmarshal xml, w)) (CallUnmarshal xml) s2) as (s3 & R3).
  change (run (xml_Unmarshal xml) s2 (Unmarshal xml) s3
            [CallUnmarshal xml (Unmarshal xml)] []) in R3.
  destruct (Unmarshal xml) as [desc | err].
  2:{ exists (Some err), [CallGetName domain (Ok name); CallGetXMLDesc domain 0 (Ok xml);
                          CallUnmarshal xml (Err err)], [], s3.
      split; [ | constructor].
      refine (run_bind _ _ _ _ _ _ _ _ _ _ _ R1 _).
      refine (run_bind _ _ _ _ _ _ _ _ _ _ _ R2 _).
      rewrite <- (app_nil_r [CallUnmarshal _ _]).
      refine (run_bind _ _ _ _ _ _ _ _ _ _ _ R3 _). apply run_ret. }
  destruct (run_range_Disks domain name
              (libvirt_schema.Disks (libvirt_schema.Devices desc)) s3)
    as (r & t & chunks & s4 & R4 & D).
  exists r, (CallGetName domain (Ok name) :: CallGetXMLDesc domain 0 (Ok xml)
             :: CallUnmarshal xml (Ok desc) :: t), chunks, s4.
  split; [ | now constructor].
  refine (run_bind _ _ _ _ _ _ _ _ _ _ _ R1 _).
  refine (run_bind _ _ _ _ _ _ _ _ _ _ _ R2 _).
  exact (run_bind _ _ _ _ _ _ _ _ _ _ _ R3 R4).
Qed.

(** ** CollectFromLibvirt *)

(** The loop of the bulk tier over the handles. *)
Lemma run_range_CollectDomain domains :
  forall s, exists r t chunks s',
    run (range_CollectDomain domains) s r s' t (List.concat chunks)
    /\ DomainsRun domains r t chunks.
Proof.
  induction domains as [ | domain rest IH]; intros s; simpl.
  - exists None, [], [], s. split; [apply run_ret | constructor].
  - destruct (run_CollectDomain domain s) as ([err | ] & t1 & chunks1 & s1 & R1 & D1).
    + exists (Some err), t1, chunks1, s1. split; [ | now constructor].
      rewrite <- (app_nil_r t1), <- (app_nil_r (List.concat chunks1)).
      refine (run_bind _ _ _ _ _ _ _ _ _ _ _ R1 _). apply run_ret.
    + destruct (IH s1) as (r & t2 & chunks2 & s2 & R2 & D2).
      exists r, (t1 ++ t2), (chunks1 ++ chunks2), s2.
      split; [ | now constructor]. rewrite concat_app.
      exact (run_bind _ _ _ _ _ _ _ _ _ _ _ R1 R2).
Qed.

(** The loop of the fallback tier over the identifiers. *)
Lemma run_range_domainIds conn ids :
  forall s, exists r t chunks s',
    run (range_domainIds conn ids) s r s' t (List.concat chunks)
    /\ IdsRun conn ids r t chunks.
Proof.
  induction ids as [ | id rest IH]; intros s; simpl.
  - exists None, [], [], s. split; [apply run_ret | constructor].
  - destruct (run_call (libvirt.LookupDomainById client conn id)
                       (CallLookupDomainById conn id) s) as (s1 & R1).
    destruct (fst (libvirt.LookupDomainById client conn id (world s)))
      as [domain | err0].
    + destruct (run_CollectDomain domain s1) as (err & t1 & chunks1 & s2 & R2 & D2).
      destruct (run_call_void (libvirt.Free client domain) (CallFree domain) s2)
        as (s3 & R3).
      destruct err as [err | ].
      * exists (Some err),
          (CallLookupDomainById conn id (Ok domain) :: t1 ++ [CallFree domain]),
          chunks1, s3.
        split; [ | now constructor].
        refine (run_bind _ _ _ _ _ _ _ _ _ _ _ R1 _).
        rewrite <- (app_nil_r (List.concat chunks1)).
        refine (run_bind _ _ _ _ _ _ _ _ _ _ _ R2 _).
        rewrite <- (app_nil_r [CallFree domain]).
        refine (run_bind _ _ _ _ _ _ _ _ _ _ _ R3 _). apply run_ret.
      * destruct (IH s3) as (r & t2 & chunks2 & s4 & R4 & D4).
        exists r, (CallLookupDomainById conn id (Ok domain) :: t1 ++ CallFree domain :: t2),
          (chunks1 ++ chunks2), s4.
        split; [ | now constructor]. rewrite concat_app.
        refine (run_bind _ _ _ _ _ _ _ _ _ _ _ R1 _).
        refine (run_bind _ _ _ _ _ _ _ _ _ _ _ R2 _).
        exact (run_bind _ _ _ _ _ _ _ _ _ _ _ R3 R4).
    + destruct (IH s1) as (r & t & chunks & s2 & R2 & D2).
      exists r, (CallLookupDomainById conn id (Err err0) :: t), chunks, s2.
      split; [ | now constructor].
      exact (run_bind _ _ _ _ _ _ _ _ _ _ _ R1 R2).
Qed.

Lemma last_cons {A} (a d : A) l : last (a :: l) d = last l a.
Proof.
  revert a d. induction l as [ | b l IH]; intros a d; [reflexivity | ].
  change (last (a :: b :: l) d) with (last (b :: l) d).
  now rewrite !IH.
Qed.

Lemma repeat_snoc {A} (x : A) n l : repeat x n ++ x :: l = x :: repeat x n ++ l.
Proof. induction n as [ | n IH]; simpl; [reflexivity | now rewrite IH]. Qed.

(** The first loop of the bulk tier defers one [Free] per handle, each on
    the address of the range variable, and leaves the last handle in
    it. *)
Lemma range_defer_Free_frame domains :
  forall s, exists s',
    range_defer_Free domains s = (Return tt, s')
    /\ extends s s' [] []
    /\ defers (frame s')
       = repeat (defer_Free var_domain) (List.length domains) ++ defers (frame s)
    /\ locals (frame s') var_domain = last domains (locals (frame s) var_domain).
Proof.
  induction domains as [ | domain rest IH]; intros s.
  - exists s. split; [reflexivity | ]. split; [apply extends_refl | ]. split; reflexivity.
  - pose (s1 := snd (bind (assign var_domain domain)
                          (fun _ => defer (defer_Free var_domain)) s)).
    assert (E1 : range_defer_Free (domain :: rest) s = range_defer_Free rest s1)
      by reflexivity.
    destruct (IH s1) as (s' & E & X & D & L).
    exists s'. rewrite E1. split; [exact E | ]. split; [exact X | ]. split.
    + rewrite D.
      change (defers (frame s1)) with (defer_Free var_domain :: defers (frame s)).
      apply repeat_snoc.
    + rewrite last_cons. exact L.
Qed.

Lemma run_deferred_all ds :
  forall s,
    let s' := fold_left (fun st d => run_deferred d st) ds s in
    extends s s' (map (deferred_call (frame s)) ds) [] /\ frame s' = frame s.
Proof.
  induction ds as [ | d ds IH]; intros s; simpl.
  - split; [apply extends_refl | reflexivity].
  - destruct (IH (run_deferred d s)) as [X F].
    assert (X1 : extends s (run_deferred d s) [deferred_call (frame s) d] []
                 /\ frame (run_deferred d s) = frame s).
    { destruct d; simpl; (split; [ | reflexivity]);
        unfold extends; simpl; now rewrite app_nil_r. }
    destruct X1 as [X1 F1]. rewrite F1 in X. split; [ | congruence].
    exact (extends_trans _ _ _ _ _ _ _ X1 X).
Qed.

Lemma run_returns {A} (m : Go A) s a s' t ms :
  run m s a s' t ms -> returns m s a s' t ms.
Proof. intros (E & X & _). now split. Qed.

Lemma returns_ret {A} (a : A) s : returns (ret a) s a s [] [].
Proof. split; [reflexivity | apply extends_refl]. Qed.

Lemma returns_bind {A B} (m : Go A) (k : A -> Go B) s a s1 t1 ms1 b s2 t2 ms2 :
  returns m s a s1 t1 ms1 -> returns (k a) s1 b s2 t2 ms2 ->
  returns (bind m k) s b s2 (t1 ++ t2) (ms1 ++ ms2).
Proof.
  intros (E1 & X1) (E2 & X2). split.
  - unfold bind. now rewrite E1.
  - eapply extends_trans; eassumption.
Qed.

Lemma returns_defer d s : returns (defer d) s tt (snd (defer d s)) [] [].
Proof. split; [reflexivity | ]. unfold extends; simpl. now rewrite !app_nil_r. Qed.

(** A function call: the calls of the body, then those of its deferred
    calls, in the frame the body ends with. *)
Lemma run_func {A} (body : Go A) s a s1 t ms :
  returns body (set_frame new_frame s) a s1 t ms ->
  exists s',
    run (func body) s a s' (t ++ map (deferred_call (frame s1)) (defers (frame s1))) ms.
Proof.
  intros (E & X). unfold func, run. rewrite E.
  destruct (run_deferred_all (defers (frame s1)) s1) as [X2 F2].
  eexists. split; [reflexivity | ]. split; [ | reflexivity].
  pose proof (extends_trans _ _ _ _ _ _ _ X X2) as X3. rewrite app_nil_r in X3.
  exact X3.
Qed.

Lemma run_CollectFromLibvirt uri :
  forall s, exists r t chunks s',
    run (CollectFromLibvirt uri) s r s' t (List.concat chunks)
    /\ FleetRun uri r t chunks.
Proof.
  intros s. unfold CollectFromLibvirt. set (s0 := set_frame new_frame s).
  destruct (run_call (libvirt.NewConnect client uri) (CallNewConnect uri) s0)
    as (s1 & R1).
  change (call (libvirt.NewConnect client uri) (CallNewConnect uri))
    with (NewConnect uri) in R1.
  assert (F1 : frame s1 = new_frame) by apply R1.
  apply run_returns in R1.
  destruct (fst (libvirt.NewConnect client uri (world s0))) as [conn | err].
  2:{ assert (B : returns (CollectFromLibvirt_body uri) s0 (Some err) s1
                    [CallNewConnect uri (Err err)] (List.concat [])).
      { rewrite <- (app_nil_r [CallNewConnect _ _]).
        refine (returns_bind _ _ _ _ _ _ _ _ _ _ _ R1 _). apply returns_ret. }
      destruct (run_func _ _ _ _ _ _ B) as (s' & R). rewrite F1 in R. simpl in R.
      exists (Some err), [CallNewConnect uri (Err err)], [], s'.
      split; [exact R | constructor]. }
  pose proof (returns_defer (defer_Close conn) s1) as R2.
  set (s2 := snd (defer (defer_Close conn) s1)) in *.
  assert (F2 : frame s2 = {| locals := locals new_frame; defers := [defer_Close conn] |}).
  { unfold s2. simpl. now rewrite F1. }
  destruct (run_call (libvirt.ListAllDomains client conn libvirt.CONNECT_LIST_DOMAINS_ACTIVE)
              (CallListAllDomains conn libvirt.CONNECT_LIST_DOMAINS_ACTIVE) s2)
    as (s3 & R3).
  change (call _ _) with
    (Connect_ListAllDomains conn libvirt.CONNECT_LIST_DOMAINS_ACTIVE) in R3.
  assert (F3 : frame s3 = frame s2) by apply R3.
  apply run_returns in R3.
  destruct (fst (libvirt.ListAllDomains client conn libvirt.CONNECT_LIST_DOMAINS_ACTIVE
                   (world s2))) as [domains | err0].
  - (* the bulk tier *)
    destruct (range_defer_Free_frame domains s3) as (s4 & E4 & X4 & D4 & L4).
    destruct (run_range_CollectDomain domains s4) as (r & t & chunks & s5 & R5 & D5).
    assert (F5 : frame s5 = frame s4) by apply R5.
    apply run_returns in R5.
    assert (B : returns (CollectFromLibvirt_body uri) s0 r s5
                  (CallNewConnect uri (Ok conn)
                   :: CallListAllDomains conn libvirt.CONNECT_LIST_DOMAINS_ACTIVE (Ok domains)
                   :: t) (List.concat chunks)).
    { refine (returns_bind _ _ _ _ _ _ _ _ _ _ _ R1 _).
      refine (returns_bind _ _ _ _ _ _ _ _ _ _ _ R2 _).
      refine (returns_bind _ _ _ _ _ _ _ _ _ _ _ R3 _).
      exact (returns_bind _ _ _ _ _ _ _ _ _ _ _ (conj E4 X4) R5). }
    destruct (run_func _ _ _ _ _ _ B) as (s' & R).
    rewrite F5 in R. rewrite D4, F3, F2 in R. simpl defers in R.
    rewrite map_app, map_repeat in R. simpl in R.
    rewrite L4, F3, F2 in R.
    exists r, (CallNewConnect uri (Ok conn)
               :: CallListAllDomains conn libvirt.CONNECT_LIST_DOMAINS_ACTIVE (Ok domains)
               :: t ++ repeat (CallFree (last_handle domains)) (List.length domains)
                    ++ [CallClose conn]), chunks, s'.
    split; [exact R | now constructor].
  - (* the fallback tier *)
    destruct (run_call (libvirt.ListDomains client conn) (CallListDomains conn) s3)
      as (s4 & R4).
    change (call _ _) with (Connect_ListDomains conn) in R4.
    assert (F4 : frame s4 = frame s3) by apply R4.
    apply run_returns in R4.
    destruct (fst (libvirt.ListDomains client conn (world s3))) as [ids | err].
    + destruct (run_range_domainIds conn ids s4) as (r & t & chunks & s5 & R5 & D5).
      assert (F5 : frame s5 = frame s4) by apply R5.
      apply run_returns in R5.
      assert (B : returns (CollectFromLibvirt_body uri) s0 r s5
                    (CallNewConnect uri (Ok conn)
                     :: CallListAllDomains conn libvirt.CONNECT_LIST_DOMAINS_ACTIVE (Err err0)
                     :: CallListDomains conn (Ok ids) :: t) (List.concat chunks)).
      { refine (returns_bind _ _ _ _ _ _ _ _ _ _ _ R1 _).
        refine (returns_bind _ _ _ _ _ _ _ _ _ _ _ R2 _).
        refine (returns_bind _ _ _ _ _ _ _ _ _ _ _ R3 _).
        exact (returns_bind _ _ _ _ _ _ _ _ _ _ _ R4 R5). }
      destruct (run_func _ _ _ _ _ _ B) as (s' & R).
      rewrite F5, F4, F3, F2 in R. simpl in R.
      exists r, (CallNewConnect uri (Ok conn)
                 :: CallListAllDomains conn libvirt.CONNECT_LIST_DOMAINS_ACTIVE (Err err0)
                 :: CallListDomains conn (Ok ids) :: t ++ [CallClose conn]), chunks, s'.
      split; [exact R | now constructor].
    + assert (B : returns (CollectFromLibvirt_body uri) s0 (Some err) s4
                    [CallNewConnect uri (Ok conn);
                     CallListAllDomains conn libvirt.CONNECT_LIST_DOMAINS_ACTIVE (Err err0);
                     CallListDomains conn (Err err)] (List.concat [])).
      { refine (returns_bind _ _ _ _ _ _ _ _ _ _ _ R1 _).
        refine (returns_bind _ _ _ _ _ _ _ _ _ _ _ R2 _).
        refine (returns_bind _ _ _ _ _ _ _ _ _ _ _ R3 _).
        rewrite <- (app_nil_r [CallListDomains _ _]).
        refine (returns_bind _ _ _ _ _ _ _ _ _ _ _ R4 _). apply returns_ret. }
      destruct (run_func _ _ _ _ _ _ B) as (s' & R).
      rewrite F4, F3, F2 in R. simpl in R.
      exists (Some err),
        [CallNewConnect uri (Ok conn);
         CallListAllDomains conn libvirt.CONNECT_LIST_DOMAINS_ACTIVE (Err err0);
         CallListDomains conn (Err err); CallClose conn], [], s'.
      split; [exact R | constructor].
Qed.

End Runs.

(** ** Sequences of calls *)

Lemma clean_app t1 t2 : clean (t1 ++ t2) <-> clean t1 /\ clean t2.
Proof. apply Forall_app. Qed.

Lemma release_not_failure c : is_release c = true -> hard_failure c = None.
Proof. destruct c; simpl; intros H; try discriminate; reflexivity. Qed.

Lemma releases_clean rel : Forall (fun c => is_release c = true) rel -> clean rel.
Proof. intros H. eapply Forall_impl; [ | exact H]. apply release_not_failure. Qed.

Lemma collect_failure_hard c err : collect_failure c = Some err -> hard_failure c = Some err.
Proof. destruct c as [? [ | ] | | | ? [ | ] | | | | | | ]; simpl; auto; discriminate. Qed.

Lemma fail_fast_prefix p r t : clean p -> fail_fast r t -> fail_fast r (p ++ t).
Proof.
  intros P. destruct r as [err | ]; simpl.
  - intros (t1 & c & rel & -> & C1 & F & R).
    exists (p ++ t1), c, rel. rewrite app_assoc. repeat split; auto.
    apply clean_app; auto.
  - intros C. apply clean_app; auto.
Qed.

Lemma fail_fast_release r t rel :
  Forall (fun c => is_release c = true) rel -> fail_fast r t -> fail_fast r (t ++ rel).
Proof.
  intros R. destruct r as [err | ]; simpl.
  - intros (t1 & c & rel0 & -> & C1 & F & R0).
    exists t1, c, (rel0 ++ rel). rewrite <- app_assoc. repeat split; auto.
    apply Forall_app; auto.
  - intros C. apply clean_app; split; auto. now apply releases_clean.
Qed.

(** The failed call of a fail-fast sequence is where its only hard failure
    is. *)
Lemma failure_position t1 :
  forall pre c' c rel post,
    t1 ++ c' :: rel = pre ++ c :: post ->
    clean t1 -> clean rel -> hard_failure c <> None ->
    pre = t1 /\ c = c' /\ post = rel.
Proof.
  induction t1 as [ | a t1 IH]; intros pre c' c rel post E C1 C2 H.
  - destruct pre as [ | p pre]; simpl in E.
    + inversion E. auto.
    + inversion E; subst. apply clean_app in C2. destruct C2 as [_ C2].
      inversion C2; subst. contradiction.
  - destruct pre as [ | p pre]; simpl in E.
    + inversion E; subst. inversion C1; subst. contradiction.
    + inversion E; subst. inversion C1; subst.
      destruct (IH pre c' c rel post H2 H4 C2 H) as (-> & -> & ->). auto.
Qed.

Lemma fail_fast_split r pre c post err :
  fail_fast r (pre ++ c :: post) -> hard_failure c = Some err ->
  r = Some err /\ clean pre /\ Forall (fun c => is_release c = true) post.
Proof.
  intros F H. destruct r as [err' | ]; simpl in F.
  - destruct F as (t1 & c' & rel & E & C1 & F & R).
    symmetry in E.
    destruct (failure_position t1 pre c' c rel post E C1 (releases_clean _ R))
      as (-> & -> & ->); [congruence | ].
    repeat split; auto. congruence.
  - apply clean_app in F. destruct F as [_ F]. inversion F; subst. congruence.
Qed.

Lemma fail_fast_error r t err :
  fail_fast r t -> r = Some err -> exists c, In c t /\ hard_failure c = Some err.
Proof.
  intros F ->. destruct F as (t1 & c & rel & -> & _ & H & _).
  exists c. split; [ | exact H]. apply in_or_app. right. now left.
Qed.

Lemma fail_fast_failure r t c err :
  fail_fast r t -> In c t -> hard_failure c = Some err -> r = Some err.
Proof.
  intros F I H. apply in_split in I. destruct I as (pre & post & ->).
  now destruct (fail_fast_split _ _ _ _ _ F H).
Qed.

(** *** The calls of each loop and function *)

Lemma DisksRun_calls domain name disks r t chunks :
  DisksRun domain name disks r t chunks -> Forall (fun c => is_domain_call c = true) t.
Proof. induction 1; repeat constructor; auto. Qed.

Lemma DomainRun_calls domain r t chunks :
  DomainRun domain r t chunks -> Forall (fun c => is_domain_call c = true) t.
Proof.
  destruct 1; repeat constructor. eapply DisksRun_calls; eassumption.
Qed.

Lemma DomainsRun_calls domains r t chunks :
  DomainsRun domains r t chunks -> Forall (fun c => is_domain_call c = true) t.
Proof.
  induction 1.
  - constructor.
  - eapply DomainRun_calls; eassumption.
  - apply Forall_app; split; auto. eapply DomainRun_calls; eassumption.
Qed.

Lemma domain_call_ids_call c : is_domain_call c = true -> is_ids_call c = true.
Proof. destruct c; simpl; auto. Qed.

Lemma IdsRun_calls conn ids r t chunks :
  IdsRun conn ids r t chunks -> Forall (fun c => is_ids_call c = true) t.
Proof.
  induction 1.
  - constructor.
  - constructor; auto.
  - constructor; [reflexivity | ]. apply Forall_app; split.
    + eapply Forall_impl; [ | eapply DomainRun_calls; eassumption].
      apply domain_call_ids_call.
    + repeat constructor.
  - constructor; [reflexivity | ]. apply Forall_app; split.
    + eapply Forall_impl; [ | eapply DomainRun_calls; eassumption].
      apply domain_call_ids_call.
    + constructor; auto.
Qed.

(** *** Every run is fail-fast *)

Lemma DisksRun_fail_fast domain name disks r t chunks :
  DisksRun domain name disks r t chunks -> fail_fast r t.
Proof.
  induction 1.
  - constructor.
  - exists [], (CallBlockStats domain (device disk) (Err err)), [].
    repeat split; constructor.
  - apply (fail_fast_prefix [_]); [ | assumption]. repeat constructor.
Qed.

Lemma DomainRun_fail_fast domain r t chunks :
  DomainRun domain r t chunks -> fail_fast r t.
Proof.
  destruct 1.
  - exists [], (CallGetName domain (Err err)), []. repeat split; constructor.
  - exists [CallGetName domain (Ok name)], (CallGetXMLDesc domain 0 (Err err)), [].
    repeat split; repeat constructor.
  - exists [CallGetName domain (Ok name); CallGetXMLDesc domain 0 (Ok xml)],
      (CallUnmarshal xml (Err err)), [].
    repeat split; repeat constructor.
  - apply (fail_fast_prefix [_; _; _]); [repeat constructor | ].
    eapply DisksRun_fail_fast; eassumption.
Qed.

Lemma DomainsRun_fail_fast domains r t chunks :
  DomainsRun domains r t chunks -> fail_fast r t.
Proof.
  induction 1.
  - constructor.
  - eapply DomainRun_fail_fast; eassumption.
  - apply fail_fast_prefix; [ | assumption].
    apply (DomainRun_fail_fast _ None _ _ H).
Qed.

Lemma IdsRun_fail_fast conn ids r t chunks :
  IdsRun conn ids r t chunks -> fail_fast r t.
Proof.
  induction 1.
  - constructor.
  - apply (fail_fast_prefix [_]); [repeat constructor | assumption].
  - apply (fail_fast_prefix [_]); [repeat constructor | ].
    apply fail_fast_release; [repeat constructor | ].
    eapply DomainRun_fail_fast; eassumption.
  - apply (fail_fast_prefix [_]); [repeat constructor | ].
    apply fail_fast_prefix; [apply (DomainRun_fail_fast _ None _ _ H) | ].
    apply (fail_fast_prefix [_]); [repeat constructor | assumption].
Qed.

Lemma FleetRun_fail_fast uri r t chunks :
  FleetRun uri r t chunks -> fail_fast r t.
Proof.
  destruct 1.
  - exists [], (CallNewConnect uri (Err err)), []. repeat split; constructor.
  - apply (fail_fast_prefix [_; _]); [repeat constructor | ].
    apply fail_fast_release.
    + apply Forall_app; split; [ | repeat constructor].
      apply Forall_forall. intros c I. apply repeat_spec in I. now subst.
    + eapply DomainsRun_fail_fast; eassumption.
  - exists [CallNewConnect uri (Ok conn);
            CallListAllDomains conn libvirt.CONNECT_LIST_DOMAINS_ACTIVE (Err err0)],
      (CallListDomains conn (Err err)), [CallClose conn].
    repeat split; repeat constructor.
  - apply (fail_fast_prefix [_; _; _]); [repeat constructor | ].
    apply fail_fast_release; [repeat constructor | ].
    eapply IdsRun_fail_fast; eassumption.
Qed.

(** *** Reading the calls of a run *)

Lemma release_no_stats rel :
  Forall (fun c => is_release c = true) rel -> stats_returned rel = [].
Proof.
  induction 1 as [ | c rel H _ IH]; [reflexivity | ].
  unfold stats_returned in *. simpl. rewrite IH.
  destruct c; try discriminate; reflexivity.
Qed.

Lemma repeat_Free_releases d n : Forall (fun c => is_release c = true) (repeat (CallFree d) n).
Proof. apply Forall_forall. intros c I. apply repeat_spec in I. now subst. Qed.

Lemma DisksRun_stats_calls domain name disks r t chunks :
  DisksRun domain name disks r t chunks ->
  Forall (fun c => exists path res, c = CallBlockStats domain path res) t.
Proof. induction 1; repeat constructor; eauto. Qed.

(** One chunk of samples per statistics record returned. *)
Lemma DisksRun_chunks domain name disks r t chunks :
  DisksRun domain name disks r t chunks -> Forall2 chunk_of chunks (stats_returned t).
Proof.
  induction 1; try constructor; auto. now exists name, disk.
Qed.

(** The chunks are those of the first disks of the descriptor, in order. *)
Lemma DisksRun_disks domain name disks r t chunks :
  DisksRun domain name disks r t chunks ->
  Forall2 (fun chunk disk => exists st, chunk = block_samples name disk st)
          chunks (firstn (List.length chunks) disks).
Proof. induction 1; simpl; try constructor; eauto. Qed.

Lemma DisksRun_queried domain name disks r t chunks :
  DisksRun domain name disks r t chunks ->
  exists n, stats_queried t = map device (firstn n disks)
            /\ (r = None -> stats_queried t = map device disks).
Proof.
  induction 1.
  - exists 0%nat. auto.
  - exists 1%nat. split; [now rewrite firstn_cons, firstn_O | discriminate].
  - destruct IHDisksRun as (n & E & F). exists (S n).
    unfold stats_queried in *. simpl. rewrite E. split; [reflexivity | ].
    intros R. now rewrite <- (F R), E.
Qed.

Lemma DomainRun_chunks domain r t chunks :
  DomainRun domain r t chunks -> Forall2 chunk_of chunks (stats_returned t).
Proof.
  destruct 1; [constructor | constructor | constructor | ].
  change (Forall2 chunk_of chunks (stats_returned t)).
  eapply DisksRun_chunks; eassumption.
Qed.

Lemma DomainsRun_chunks domains r t chunks :
  DomainsRun domains r t chunks -> Forall2 chunk_of chunks (stats_returned t).
Proof.
  induction 1.
  - constructor.
  - eapply DomainRun_chunks; eassumption.
  - unfold stats_returned. rewrite flat_map_app. apply Forall2_app; auto.
    eapply DomainRun_chunks; eassumption.
Qed.

Lemma IdsRun_chunks conn ids r t chunks :
  IdsRun conn ids r t chunks -> Forall2 chunk_of chunks (stats_returned t).
Proof.
  induction 1.
  - constructor.
  - assumption.
  - change (Forall2 chunk_of chunks (stats_returned (t ++ [CallFree domain]))).
    unfold stats_returned. rewrite flat_map_app. simpl. rewrite app_nil_r.
    eapply DomainRun_chunks; eassumption.
  - change (Forall2 chunk_of (chunks1 ++ chunks2)
              (stats_returned (t1 ++ [CallFree domain] ++ t2))).
    unfold stats_returned. rewrite !flat_map_app. simpl.
    apply Forall2_app; auto. eapply DomainRun_chunks; eassumption.
Qed.

Lemma FleetRun_chunks uri r t chunks :
  FleetRun uri r t chunks -> Forall2 chunk_of chunks (stats_returned t).
Proof.
  destruct 1; try constructor.
  - change (Forall2 chunk_of chunks
              (stats_returned (t ++ repeat (CallFree (last_handle domains))
                                     (List.length domains) ++ [CallClose conn]))).
    unfold stats_returned. rewrite !flat_map_app.
    fold (stats_returned (repeat (CallFree (last_handle domains)) (List.length domains))).
    rewrite (release_no_stats _ (repeat_Free_releases _ _)). simpl. rewrite app_nil_r.
    eapply DomainsRun_chunks; eassumption.
  - change (Forall2 chunk_of chunks (stats_returned (t ++ [CallClose conn]))).
    unfold stats_returned. rewrite flat_map_app. simpl. rewrite app_nil_r.
    eapply IdsRun_chunks; eassumption.
Qed.

(** ** What a run shows *)

Section Observed.

Context {W : Type} {env : Collaborators W}.
Implicit Types s : @State W.

Lemma skipn_prefix {A} (l l' : list A) : skipn (List.length l) (l ++ l') = l'.
Proof. now rewrite skipn_app, Nat.sub_diag, skipn_all. Qed.

Lemma CollectDomain_observed domain s :
  exists r t chunks,
    outcome (CollectDomain domain) s = Return r
    /\ trace (CollectDomain domain) s = t
    /\ sent (CollectDomain domain) s = List.concat chunks
    /\ DomainRun domain r t chunks.
Proof.
  destruct (run_CollectDomain domain s) as (r & t & chunks & s' & R & D).
  exists r, t, chunks. repeat split; auto.
  - eapply run_outcome; eassumption.
  - eapply run_trace; eassumption.
  - eapply run_sent; eassumption.
Qed.

Lemma CollectFromLibvirt_observed uri s :
  exists r t chunks,
    outcome (CollectFromLibvirt uri) s = Return r
    /\ trace (CollectFromLibvirt uri) s = t
    /\ sent (CollectFromLibvirt uri) s = List.concat chunks
    /\ written (CollectFromLibvirt uri) s = []
    /\ FleetRun uri r t chunks.
Proof.
  destruct (run_CollectFromLibvirt uri s) as (r & t & chunks & s' & R & D).
  exists r, t, chunks. repeat split; auto.
  - eapply run_outcome; eassumption.
  - eapply run_trace; eassumption.
  - eapply run_sent; eassumption.
  - eapply run_written; eassumption.
Qed.

(** [Collect] adds the health gauge, and the log line of a failure, to
    what [CollectFromLibvirt] does. *)
Lemma Collect_observed e s :
  exists r t chunks,
    outcome (CollectFromLibvirt (uri e)) s = Return r
    /\ FleetRun (uri e) r t chunks
    /\ outcome (Collect e) s = Return tt
    /\ trace (Collect e) s = t
    /\ sent (CollectFromLibvirt (uri e)) s = List.concat chunks
    /\ sent (Collect e) s = List.concat chunks ++ [up_sample (health (Return r))]
    /\ written (Collect e) s = failure_log (Return r).
Proof.
  destruct (run_CollectFromLibvirt (uri e) s)
    as (r & t & chunks & s0 & (E & (XC & XM & XL) & F) & D).
  exists r, t, chunks.
  assert (O : outcome (CollectFromLibvirt (uri e)) s = Return r)
    by (unfold outcome; now rewrite E).
  assert (SF : sent (CollectFromLibvirt (uri e)) s = List.concat chunks).
  { unfold sent. rewrite E. simpl. rewrite XM.
    now rewrite skipn_app, Nat.sub_diag, skipn_all. }
  split; [exact O | ]. split; [exact D | ].
  unfold outcome, trace, sent, written, Collect, bind. rewrite E.
  destruct r as [err | ]; simpl; rewrite ?XC, ?XM, ?XL;
    rewrite <- ?app_assoc, ?skipn_prefix, ?skipn_all; repeat split; auto.
Qed.

End Observed.

(** ** The samples of a disk *)

Lemma strings_eqb_eq a b : strings_eqb a b = true <-> a = b.
Proof.
  revert b. induction a as [ | x a IH]; destruct b as [ | y b]; simpl;
    try (split; [discriminate | discriminate]); [tauto | ].
  rewrite andb_true_iff, String.eqb_eq, IH. split.
  - now intros [-> ->].
  - intros E. inversion E. auto.
Qed.

Lemma Desc_eqb_eq a b : Desc_eqb a b = true <-> a = b.
Proof.
  unfold Desc_eqb. rewrite !andb_true_iff, !String.eqb_eq, strings_eqb_eq.
  destruct a, b; simpl. split.
  - now intros [[-> ->] ->].
  - intros E. inversion E. auto.
Qed.

Lemma desc_of_injective c c' : desc_of c = desc_of c' -> c = c'.
Proof.
  intros E. apply Desc_eqb_eq in E.
  destruct c, c'; try reflexivity; vm_compute in E; discriminate.
Qed.

Lemma block_descs_counters : map desc_of counters = block_descs.
Proof. reflexivity. Qed.

Lemma in_block_samples name disk st m :
  In m (block_samples name disk st) <->
  exists c, flag c st = true /\ m = block_sample name disk st c.
Proof.
  unfold block_samples. rewrite in_flat_map. split.
  - intros (c & _ & I). exists c. destruct (flag c st); simpl in I; [ | contradiction].
    destruct I as [<- | []]. auto.
  - intros (c & F & ->). exists c. split.
    + destruct c; simpl; tauto.
    + rewrite F. now left.
Qed.

(** One sample of a counter when its flag is set, none otherwise. *)
Lemma count_block_samples name disk st c :
  count_desc (desc_of c) (block_samples name disk st) = if flag c st then 1%nat else 0%nat.
Proof.
  unfold count_desc, block_samples, counters, flat_map.
  destruct st as [f1 v1 f2 v2 f3 v3 f4 v4 f5 v5 f6 v6 f7 v7 f8 v8 f9 v9].
  destruct c; cbn [flag libvirt.RdBytesSet libvirt.RdReqSet libvirt.RdTotalTimesSet
                   libvirt.WrBytesSet libvirt.WrReqSet libvirt.WrTotalTimesSet
                   libvirt.FlushReqSet libvirt.FlushTotalTimesSet];
    destruct f1, f2, f3, f4, f5, f6, f7, f8; reflexivity.
Qed.

(** The descriptor that was parsed in a run of [CollectDomain] is the one
    whose disks the run goes through, under the name that was resolved. *)
Lemma DomainRun_parsed domain r t chunks xml desc :
  DomainRun domain r t chunks ->
  In (CallUnmarshal xml (Ok desc)) t ->
  exists name t',
    t = CallGetName domain (Ok name) :: CallGetXMLDesc domain 0 (Ok xml)
        :: CallUnmarshal xml (Ok desc) :: t'
    /\ DisksRun domain name (libvirt_schema.Disks (libvirt_schema.Devices desc)) r t' chunks.
Proof.
  destruct 1 as [err | name err | name xml0 err | name xml0 desc0 r t chunks D]; simpl; intros I.
  - destruct I as [I | []]; discriminate.
  - destruct I as [I | [I | []]]; discriminate.
  - destruct I as [I | [I | [I | []]]]; discriminate.
  - destruct I as [I | [I | [I | I]]]; try discriminate.
    + inversion I; subst. now exists name, t.
    + pose proof (DisksRun_stats_calls _ _ _ _ _ _ D) as S.
      rewrite Forall_forall in S. destruct (S _ I) as (? & ? & ?). discriminate.
Qed.

(** The chunks of a run over the disks, each with the disk it belongs to
    and the answer to the query for this disk. *)
Lemma DisksRun_answered domain name disks r t chunks :
  DisksRun domain name disks r t chunks ->
  Forall2 (fun chunk '(disk, (path, st)) =>
             path = device disk /\ chunk = block_samples name disk st)
          chunks (combine disks (stats_answered t)).
Proof. induction 1; simpl; constructor; auto. Qed.

Lemma map_block_samples {A : Type} (f : Metric -> A) name disk st :
  map f (block_samples name disk st)
  = flat_map (fun c => if flag c st then [f (block_sample name disk st c)] else [])
             counters.
Proof.
  unfold block_samples. induction counters as [ | c l IH]; [reflexivity | ].
  simpl. rewrite map_app, IH. now destruct (flag c st).
Qed.

Section CollectDomain_properties.

Context {W : Type} {env : Collaborators W}.
Implicit Types s : @State W.

(** C2.  The samples [CollectDomain] sends come in chunks, one per
    statistics record that a query returned, in order; in the chunk of a
    record, each of the eight counters has exactly one sample when its flag
    is set in the record and no sample at all when it is not. *)
Theorem samples_follow_flags (domain : libvirt.Domain) s :
  exists chunks,
    sent (CollectDomain domain) s = List.concat chunks
    /\ Forall2 (fun chunk st =>
                 forall c, count_desc (desc_of c) chunk
                           = if flag c st then 1%nat else 0%nat)
               chunks (stats_returned (trace (CollectDomain domain) s)).
Proof.
  destruct (CollectDomain_observed domain s) as (r & t & chunks & _ & -> & -> & D).
  exists chunks. split; [reflexivity | ].
  eapply Forall2_impl; [ | eapply DomainRun_chunks; eassumption].
  intros chunk st (name & disk & ->) c. apply count_block_samples.
Qed.

(** C3.  The samples [CollectDomain] sends come in chunks, one per
    statistics record that a query returned, in order, and the chunk of a
    record holds, for each counter whose flag is set in this record and for
    no other, one sample of the descriptor of the counter, whose value is
    [float64(raw) / 1e9] for a time counter and [float64(raw)] for a byte or
    request counter, [raw] being the integer of this very record.  [1e9] is
    exactly 10^9, [float64(raw)] is [raw] itself as long as [raw] is below
    2^53 in absolute value, and 2_500_000_000 ns give 2.5 (that is
    5 * 2^50 * 2^-51). *)
Theorem sample_values (domain : libvirt.Domain) s :
  (exists chunks,
     sent (CollectDomain domain) s = List.concat chunks
     /\ Forall2 (fun chunk st =>
                  map (fun m => (desc m, val m)) chunk
                  = flat_map
                      (fun c =>
                         if flag c st
                         then [(desc_of c,
                                if is_time c
                                then float64_div (float64_of_int (raw c st)) const_1e9
                                else float64_of_int (raw c st))]
                         else [])
                      counters)
                chunks (stats_returned (trace (CollectDomain domain) s)))
  /\ (forall x, (Z.abs x < 2 ^ 53)%Z -> float64_to_int (float64_of_int x) = Some x)
  /\ float64_div (float64_of_int 2500000000) const_1e9
     = S754_finite false 5629499534213120 (-51)
  /\ float64_to_int const_1e9 = Some 1000000000%Z.
Proof.
  split; [ | split; [exact float64_of_int_exact | split; reflexivity]].
  destruct (CollectDomain_observed domain s) as (r & t & chunks & _ & -> & -> & D).
  exists chunks. split; [reflexivity | ].
  eapply Forall2_impl; [ | eapply DomainRun_chunks; eassumption].
  intros chunk st (name & disk & ->). apply map_block_samples.
Qed.

(** C8.  In a run of [CollectDomain] that resolved the name [name] and
    parsed the descriptor [desc], the samples come in chunks, one per
    statistics query that was answered; the n-th answer is that of the query
    for the target device of the n-th disk of [desc], and the n-th chunk
    holds, for each counter whose flag is set in this answer and for no
    other, one sample of the descriptor of the counter, of the kind counter,
    with the label values [name], the source file of the n-th disk and its
    target device, in this order.  The descriptors of the counters are the
    eight block statistics descriptors, their labels are [domain],
    [source_file], [target_device], and their names are the eight names
    libvirt_block_stats_..._total. *)
Theorem sample_labels (domain : libvirt.Domain) s name xml desc :
  In (CallGetName domain (Ok name)) (trace (CollectDomain domain) s) ->
  In (CallUnmarshal xml (Ok desc)) (trace (CollectDomain domain) s) ->
  (exists chunks,
    sent (CollectDomain domain) s = List.concat chunks
    /\ Forall2 (fun chunk '(disk, (path, st)) =>
                 path = libvirt_schema.Device (libvirt_schema.Target disk)
                 /\ map (fun m => (prometheus.desc m, valType m, labelValues m)) chunk
                    = flat_map
                        (fun c =>
                           if flag c st
                           then [(desc_of c, CounterValue,
                                  [name;
                                   libvirt_schema.File (libvirt_schema.Source disk);
                                   libvirt_schema.Device (libvirt_schema.Target disk)])]
                           else [])
                        counters)
               chunks
               (combine (libvirt_schema.Disks (libvirt_schema.Devices desc))
                        (stats_answered (trace (CollectDomain domain) s))))
  /\ map desc_of counters = block_descs
  /\ Forall (fun d => variableLabels d = ["domain"; "source_file"; "target_device"])
            block_descs
  /\ map fqName block_descs
     = ["libvirt_block_stats_read_bytes_total";
        "libvirt_block_stats_read_requests_total";
        "libvirt_block_stats_read_seconds_total";
        "libvirt_block_stats_write_bytes_total";
        "libvirt_block_stats_write_requests_total";
        "libvirt_block_stats_write_seconds_total";
        "libvirt_block_stats_flush_requests_total";
        "libvirt_block_stats_flush_seconds_total"].
Proof.
  destruct (CollectDomain_observed domain s) as (r & t & chunks & _ & -> & -> & D).
  intros IN IU.
  split; [ | split; [reflexivity | split; [repeat constructor | reflexivity]]].
  destruct (DomainRun_parsed _ _ _ _ _ _ D IU) as (name' & t' & -> & DR).
  assert (name' = name) as ->.
  { destruct IN as [E | [E | [E | I]]]; try discriminate.
    - now inversion E.
    - pose proof (DisksRun_stats_calls _ _ _ _ _ _ DR) as S.
      rewrite Forall_forall in S. destruct (S _ I) as (? & ? & ?). discriminate. }
  exists chunks. split; [reflexivity | ].
  change (stats_answered (CallGetName domain (Ok name) :: CallGetXMLDesc domain 0 (Ok xml)
                          :: CallUnmarshal xml (Ok desc) :: t'))
    with (stats_answered t').
  eapply Forall2_impl; [ | eapply DisksRun_answered; eassumption].
  intros chunk [disk [path st]] (-> & ->). split; [reflexivity | ].
  apply map_block_samples.
Qed.

(** The statistics are queried for the disks of the descriptor in their
    order: for a first part of them, and for all of them when no error is
    returned. *)
Lemma disks_queried_in_order (domain : libvirt.Domain) s xml desc :
  In (CallUnmarshal xml (Ok desc)) (trace (CollectDomain domain) s) ->
  exists n,
    stats_queried (trace (CollectDomain domain) s)
    = map device (firstn n (libvirt_schema.Disks (libvirt_schema.Devices desc)))
    /\ (outcome (CollectDomain domain) s = Return None ->
        stats_queried (trace (CollectDomain domain) s)
        = map device (libvirt_schema.Disks (libvirt_schema.Devices desc))).
Proof.
  destruct (CollectDomain_observed domain s) as (r & t & chunks & -> & -> & _ & D).
  intros IU.
  destruct (DomainRun_parsed _ _ _ _ _ _ D IU) as (name & t' & -> & DR).
  destruct (DisksRun_queried _ _ _ _ _ _ DR) as (n & Q & F).
  exists n. split; [exact Q | ]. intros E. apply F. now inversion E.
Qed.

(** [CollectDomain] stops at the first step that fails and returns its
    error. *)
Lemma CollectDomain_stops_at_failure (domain : libvirt.Domain) s pre c err post :
  trace (CollectDomain domain) s = pre ++ c :: post ->
  collect_failure c = Some err ->
  post = [] /\ outcome (CollectDomain domain) s = Return (Some err).
Proof.
  destruct (CollectDomain_observed domain s) as (r & t & chunks & -> & -> & _ & D).
  intros -> CF.
  destruct (fail_fast_split _ _ _ _ err (DomainRun_fail_fast _ _ _ _ D)
              (collect_failure_hard _ _ CF)) as (-> & _ & R).
  split; [ | reflexivity].
  pose proof (DomainRun_calls _ _ _ _ D) as F.
  apply Forall_app in F. destruct F as [_ F]. inversion F as [ | ? ? _ F']; subst.
  destruct post as [ | c' post]; [reflexivity | exfalso].
  inversion R; subst. inversion F'; subst.
  destruct c'; discriminate.
Qed.

(** C10.  A run of [CollectDomain] that parsed a descriptor without disks
    queries no block statistics, sends no sample and returns no error. *)
Theorem no_disks_no_samples (domain : libvirt.Domain) s xml desc :
  In (CallUnmarshal xml (Ok desc)) (trace (CollectDomain domain) s) ->
  libvirt_schema.Disks (libvirt_schema.Devices desc) = [] ->
  outcome (CollectDomain domain) s = Return None
  /\ sent (CollectDomain domain) s = []
  /\ stats_queried (trace (CollectDomain domain) s) = [].
Proof.
  destruct (CollectDomain_observed domain s) as (r & t & chunks & -> & -> & -> & D).
  intros IU E.
  destruct (DomainRun_parsed _ _ _ _ _ _ D IU) as (name & t' & -> & DR).
  rewrite E in DR. inversion DR; subst. auto.
Qed.

End CollectDomain_properties.

(** ** Handles, lookups and releases in the calls of a run *)

Lemma domain_calls_observed t :
  Forall (fun c => is_domain_call c = true) t ->
  lookups t = [] /\ looked_up t = [] /\ freed t = [] /\ closed t = []
  /\ fallback_taken t = false.
Proof.
  induction 1 as [ | c t H _ (IH1 & IH2 & IH3 & IH4 & IH5)]; [now repeat split | ].
  unfold lookups, looked_up, freed, closed, fallback_taken in *. simpl.
  rewrite IH1, IH2, IH3, IH4, IH5.
  destruct c; try discriminate; now repeat split.
Qed.

Lemma ids_calls_observed t :
  Forall (fun c => is_ids_call c = true) t -> closed t = [] /\ fallback_taken t = false.
Proof.
  induction 1 as [ | c t H _ (IH1 & IH2)]; [now split | ].
  unfold closed, fallback_taken in *. simpl. rewrite IH1, IH2.
  destruct c; try discriminate; now split.
Qed.

Lemma ids_call_failure c : is_ids_call c = true -> hard_failure c = collect_failure c.
Proof. destruct c; simpl; try discriminate; reflexivity. Qed.

Lemma releases_observed rel :
  Forall (fun c => is_release c = true) rel ->
  stats_queried rel = [] /\ collected rel = [] /\ lookups rel = [] /\ looked_up rel = [].
Proof.
  induction 1 as [ | c t H _ (IH1 & IH2 & IH3 & IH4)]; [now repeat split | ].
  unfold stats_queried, collected, lookups, looked_up in *. simpl.
  rewrite IH1, IH2, IH3, IH4.
  destruct c; try discriminate; now repeat split.
Qed.

Lemma DisksRun_collected domain name disks r t chunks :
  DisksRun domain name disks r t chunks -> collected t = [].
Proof. induction 1; auto. Qed.

(** A run of [CollectDomain] calls [GetName] once, on its handle. *)
Lemma DomainRun_collected domain r t chunks :
  DomainRun domain r t chunks -> collected t = [domain].
Proof.
  destruct 1; try reflexivity.
  change (domain :: collected t = [domain]).
  now rewrite (DisksRun_collected _ _ _ _ _ _ H).
Qed.

(** In the loop over the identifiers: the identifiers are looked up in
    order, all of them when no error is returned; every handle a lookup
    returned is collected, and released once, in the order of the lookups. *)
Lemma IdsRun_handles conn ids r t chunks :
  IdsRun conn ids r t chunks ->
  collected t = looked_up t
  /\ freed t = looked_up t
  /\ (exists n, lookups t = firstn n ids)
  /\ (r = None -> lookups t = ids).
Proof.
  induction 1 as [ | id rest err r t chunks _ (IH1 & IH2 & (n & IH3) & IH4)
                   | id rest domain err t chunks D
                   | id rest domain t1 chunks1 r t2 chunks2 D _ (IH1 & IH2 & (n & IH3) & IH4)].
  - repeat split; auto. now exists 0%nat.
  - unfold collected, freed, lookups, looked_up in *. simpl.
    repeat split; auto.
    + exists (S n). simpl. now rewrite IH3.
    + intros R. now rewrite (IH4 R).
  - destruct (domain_calls_observed _ (DomainRun_calls _ _ _ _ D)) as (L1 & L2 & L3 & _).
    pose proof (DomainRun_collected _ _ _ _ D) as C.
    unfold collected, freed, lookups, looked_up in *. simpl.
    rewrite !flat_map_app, C, L1, L2, L3. simpl.
    repeat split; auto; [ | discriminate].
    exists 1%nat. now rewrite firstn_cons, firstn_O.
  - destruct (domain_calls_observed _ (DomainRun_calls _ _ _ _ D)) as (L1 & L2 & L3 & _).
    pose proof (DomainRun_collected _ _ _ _ D) as C.
    unfold collected, freed, lookups, looked_up in *. simpl.
    rewrite !flat_map_app, C, L1, L2, L3. simpl.
    rewrite IH1, IH2, IH3. repeat split; auto.
    + exists (S n). reflexivity.
    + intros R. rewrite <- IH3, (IH4 R). reflexivity.
Qed.

Lemma DomainsRun_collected domains r t chunks :
  DomainsRun domains r t chunks ->
  exists n, collected t = firstn n domains /\ (r = None -> collected t = domains).
Proof.
  induction 1 as [ | domain rest err t chunks D
                   | domain rest t1 chunks1 r t2 chunks2 D _ (n & IH1 & IH2)].
  - now exists 0%nat.
  - exists 1%nat. rewrite (DomainRun_collected _ _ _ _ D).
    split; [now rewrite firstn_cons, firstn_O | discriminate].
  - exists (S n). unfold collected in *. rewrite flat_map_app.
    fold (collected t1). rewrite (DomainRun_collected _ _ _ _ D). simpl.
    split; [now rewrite IH1 | ]. intros R. now rewrite (IH2 R).
Qed.

(** Refuting that a call occurs in a sequence of calls of known shape. *)
Ltac absent :=
  repeat match goal with
  | H : In _ [] |- _ => destruct H
  | H : In _ (_ :: _) |- _ => destruct H as [H | H]; [try discriminate H | ]
  | H : In _ (_ ++ _) |- _ => apply in_app_or in H; destruct H as [H | H]
  | H : In _ (repeat _ _) |- _ => apply repeat_spec in H; try discriminate H
  | F : Forall _ ?t, H : In _ ?t |- _ =>
      rewrite Forall_forall in F; apply F in H; try discriminate H
  end.

(** The run in which a call is seen. *)
Lemma FleetRun_open_failed uri r t chunks uri' err :
  FleetRun uri r t chunks -> In (CallNewConnect uri' (Err err)) t ->
  r = Some err /\ t = [CallNewConnect uri (Err err)] /\ chunks = [].
Proof.
  destruct 1 as [err' | conn domains r t chunks D | conn err0 err' | conn err0 ids r t chunks D];
    intros I.
  - destruct I as [I | []]. inversion I. auto.
  - pose proof (DomainsRun_calls _ _ _ _ D) as F. exfalso. absent.
  - exfalso. absent.
  - pose proof (IdsRun_calls _ _ _ _ _ D) as F. exfalso. absent.
Qed.

Lemma FleetRun_bulk_listed uri r t chunks conn flags domains :
  FleetRun uri r t chunks -> In (CallListAllDomains conn flags (Ok domains)) t ->
  exists t',
    t = CallNewConnect uri (Ok conn)
        :: CallListAllDomains conn libvirt.CONNECT_LIST_DOMAINS_ACTIVE (Ok domains)
        :: t' ++ repeat (CallFree (last_handle domains)) (List.length domains)
              ++ [CallClose conn]
    /\ DomainsRun domains r t' chunks.
Proof.
  destruct 1 as [err' | conn' domains' r t chunks D | conn' err0 err'
                 | conn' err0 ids r t chunks D];
    intros I.
  - exfalso. absent.
  - pose proof (DomainsRun_calls _ _ _ _ D) as F.
    destruct I as [I | [I | I]]; [discriminate I | | exfalso; absent].
    inversion I; subst. now exists t.
  - exfalso. absent.
  - pose proof (IdsRun_calls _ _ _ _ _ D) as F. exfalso. absent.
Qed.

Lemma FleetRun_bulk_failed uri r t chunks conn flags err0 :
  FleetRun uri r t chunks -> In (CallListAllDomains conn flags (Err err0)) t ->
  exists res rest,
    t = CallNewConnect uri (Ok conn)
        :: CallListAllDomains conn libvirt.CONNECT_LIST_DOMAINS_ACTIVE (Err err0)
        :: CallListDomains conn res :: rest.
Proof.
  destruct 1 as [err' | conn' domains' r t chunks D | conn' err0' err'
                 | conn' err0' ids r t chunks D];
    intros I.
  - exfalso. absent.
  - pose proof (DomainsRun_calls _ _ _ _ D) as F. exfalso. absent.
  - destruct I as [I | [I | I]]; [discriminate I | | exfalso; absent].
    inversion I; subst. eauto.
  - pose proof (IdsRun_calls _ _ _ _ _ D) as F.
    destruct I as [I | [I | I]]; [discriminate I | | exfalso; absent].
    inversion I; subst. eauto.
Qed.

Lemma FleetRun_ids_listed uri r t chunks conn ids :
  FleetRun uri r t chunks -> In (CallListDomains conn (Ok ids)) t ->
  exists err0 t',
    t = CallNewConnect uri (Ok conn)
        :: CallListAllDomains conn libvirt.CONNECT_LIST_DOMAINS_ACTIVE (Err err0)
        :: CallListDomains conn (Ok ids) :: t' ++ [CallClose conn]
    /\ IdsRun conn ids r t' chunks.
Proof.
  destruct 1 as [err' | conn' domains' r t chunks D | conn' err0' err'
                 | conn' err0' ids' r t chunks D];
    intros I.
  - exfalso. absent.
  - pose proof (DomainsRun_calls _ _ _ _ D) as F. exfalso. absent.
  - exfalso. absent.
  - pose proof (IdsRun_calls _ _ _ _ _ D) as F.
    destruct I as [I | [I | [I | I]]]; [discriminate I | discriminate I | | exfalso; absent].
    inversion I; subst. eauto.
Qed.

Lemma releases_no_fallback rel :
  Forall (fun c => is_release c = true) rel -> fallback_taken rel = false.
Proof.
  induction 1 as [ | c t H _ IH]; [reflexivity | ].
  unfold fallback_taken in *. simpl. rewrite IH.
  destruct c; try discriminate; reflexivity.
Qed.

Lemma chunks_not_health chunks sts :
  Forall2 chunk_of chunks sts ->
  filter (fun m => Desc_eqb (desc m) libvirtUpDesc) (List.concat chunks) = [].
Proof.
  induction 1 as [ | chunk st chunks sts (name & disk & ->) _ IH]; [reflexivity | ].
  simpl. rewrite filter_app, IH, app_nil_r.
  unfold block_samples, counters, flat_map.
  repeat match goal with |- context [if ?b then _ else _] => destruct b end; reflexivity.
Qed.

Section CollectFromLibvirt_properties.

Context {W : Type} {env : Collaborators W}.
Implicit Types s : @State W.

(** C1, as amended.  In a run of [CollectFromLibvirt] in which the bulk
    listing was called, the identifiers are listed (the fallback tier is
    taken) exactly when the bulk listing returned an error, whatever the
    error; and an error that [CollectFromLibvirt] returns is the error of a
    call other than the bulk listing: of opening the connection, of listing
    the identifiers, or of a step of [CollectDomain]. *)
Theorem fallback_on_any_bulk_error uri s conn flags res :
  In (CallListAllDomains conn flags res) (trace (CollectFromLibvirt uri) s) ->
  (fallback_taken (trace (CollectFromLibvirt uri) s) = true
   <-> exists err, res = Err err)
  /\ (forall err, outcome (CollectFromLibvirt uri) s = Return (Some err) ->
                  exists c, In c (trace (CollectFromLibvirt uri) s)
                            /\ hard_failure c = Some err).
Proof.
  destruct (CollectFromLibvirt_observed uri s) as (r & t & chunks & -> & -> & _ & _ & D).
  intros I. split.
  - destruct res as [domains | err0].
    + destruct (FleetRun_bulk_listed _ _ _ _ _ _ _ D I) as (t' & -> & DR).
      destruct (domain_calls_observed _ (DomainsRun_calls _ _ _ _ DR))
        as (_ & _ & _ & _ & F).
      pose proof (releases_no_fallback _ (repeat_Free_releases (last_handle domains)
                                            (List.length domains))) as F'.
      unfold fallback_taken in *. simpl. rewrite !existsb_app, F, F'.
      simpl. split; [discriminate | intros (? & ?); discriminate].
    + destruct (FleetRun_bulk_failed _ _ _ _ _ _ _ D I) as (res & rest & ->).
      split; [eauto | reflexivity].
  - intros err E. inversion E; subst.
    eapply fail_fast_error; [eapply FleetRun_fail_fast; eassumption | reflexivity].
Qed.

(** C5.  In a run of [CollectFromLibvirt] that listed the identifiers
    [ids]: the identifiers are looked up in the order of the listing, and
    all of them when no error is returned, so that a failed lookup stops
    nothing; the handles [CollectDomain] is run on are exactly those the
    lookups returned, in the order of the lookups; and an error is returned
    exactly when a step of [CollectDomain] failed, with the error of that
    step, never with that of a lookup; after the failed step the run only
    releases what it holds. *)
Theorem lookup_failures_are_skipped uri s conn ids :
  In (CallListDomains conn (Ok ids)) (trace (CollectFromLibvirt uri) s) ->
  (exists n, lookups (trace (CollectFromLibvirt uri) s) = firstn n ids)
  /\ (outcome (CollectFromLibvirt uri) s = Return None ->
      lookups (trace (CollectFromLibvirt uri) s) = ids)
  /\ collected (trace (CollectFromLibvirt uri) s)
     = looked_up (trace (CollectFromLibvirt uri) s)
  /\ (forall err,
        outcome (CollectFromLibvirt uri) s = Return (Some err)
        <-> exists c, In c (trace (CollectFromLibvirt uri) s)
                      /\ collect_failure c = Some err)
  /\ (forall pre c post err,
        trace (CollectFromLibvirt uri) s = pre ++ c :: post ->
        collect_failure c = Some err ->
        Forall (fun c' => is_release c' = true) post).
Proof.
  destruct (CollectFromLibvirt_observed uri s) as (r & t & chunks & -> & -> & _ & _ & D).
  intros I.
  pose proof (FleetRun_fail_fast _ _ _ _ D) as FF.
  destruct (FleetRun_ids_listed _ _ _ _ _ _ D I) as (err0 & t' & -> & DR).
  destruct (IdsRun_handles _ _ _ _ _ DR) as (H1 & H2 & H3 & H4).
  pose proof (IdsRun_calls _ _ _ _ _ DR) as IC.
  unfold lookups, collected, looked_up in *. simpl.
  rewrite !flat_map_app. simpl. rewrite !app_nil_r.
  split; [exact H3 | ]. split; [intros E; inversion E; auto | ].
  split; [exact H1 | ].
  split; [intros err; split | ].
  - intros E. inversion E; subst.
    destruct (fail_fast_error _ _ _ FF eq_refl) as (c & IN & HF).
    exists c. split; [exact IN | ].
    destruct IN as [<- | [<- | [<- | IN]]]; try discriminate HF.
    apply in_app_or in IN. destruct IN as [IN | [<- | []]]; [ | discriminate HF].
    rewrite Forall_forall in IC. now rewrite <- (ids_call_failure _ (IC _ IN)).
  - intros (c & IN & CF). f_equal.
    eapply fail_fast_failure; [exact FF | exact IN | ].
    now apply collect_failure_hard.
  - intros pre c post err E CF. rewrite E in FF.
    now destruct (fail_fast_split _ _ _ _ err FF (collect_failure_hard _ _ CF)).
Qed.

(** In the bulk tier, the handles of the listing are collected in their
    order: a first part of them, and all of them when no error is returned.
    [Free] is called once per handle of the listing, and every time on the
    handle the range variable holds when the function returns: the last of
    the listing. *)
Lemma bulk_tier_releases uri s conn flags domains :
  In (CallListAllDomains conn flags (Ok domains)) (trace (CollectFromLibvirt uri) s) ->
  (exists n, collected (trace (CollectFromLibvirt uri) s) = firstn n domains)
  /\ (outcome (CollectFromLibvirt uri) s = Return None ->
      collected (trace (CollectFromLibvirt uri) s) = domains)
  /\ freed (trace (CollectFromLibvirt uri) s)
     = repeat (last_handle domains) (List.length domains).
Proof.
  destruct (CollectFromLibvirt_observed uri s) as (r & t & chunks & -> & -> & _ & _ & D).
  intros I.
  destruct (FleetRun_bulk_listed _ _ _ _ _ _ _ D I) as (t' & -> & DR).
  destruct (domain_calls_observed _ (DomainsRun_calls _ _ _ _ DR)) as (_ & _ & F & _).
  destruct (DomainsRun_collected _ _ _ _ DR) as (n & C1 & C2).
  destruct (releases_observed _ (repeat_Free_releases (last_handle domains)
                                   (List.length domains))) as (_ & C3 & _).
  unfold freed, collected in *. simpl. rewrite !flat_map_app, F, C3. simpl.
  rewrite !app_nil_r. split; [now exists n | ]. split.
  - intros E. apply C2. now inversion E.
  - clear. induction (List.length domains) as [ | k IH]; simpl; congruence.
Qed.

(** In the fallback tier, the handles released are those the lookups
    returned, each once, in the order of the lookups. *)
Lemma fallback_tier_releases uri s conn ids :
  In (CallListDomains conn (Ok ids)) (trace (CollectFromLibvirt uri) s) ->
  freed (trace (CollectFromLibvirt uri) s) = looked_up (trace (CollectFromLibvirt uri) s).
Proof.
  destruct (CollectFromLibvirt_observed uri s) as (r & t & chunks & _ & -> & _ & _ & D).
  intros I.
  destruct (FleetRun_ids_listed _ _ _ _ _ _ D I) as (err0 & t' & -> & DR).
  destruct (IdsRun_handles _ _ _ _ _ DR) as (_ & H2 & _).
  unfold freed, looked_up in *. simpl. rewrite !flat_map_app. simpl.
  now rewrite !app_nil_r.
Qed.

(** A connection that was opened is closed once, by the last call of the
    run. *)
Lemma connection_closed_once uri s conn :
  In (CallNewConnect uri (Ok conn)) (trace (CollectFromLibvirt uri) s) ->
  closed (trace (CollectFromLibvirt uri) s) = [conn]
  /\ exists t', trace (CollectFromLibvirt uri) s = t' ++ [CallClose conn].
Proof.
  destruct (CollectFromLibvirt_observed uri s) as (r & t & chunks & _ & -> & _ & _ & D).
  destruct D as [err' | conn' domains' r t chunks D | conn' err0' err'
                 | conn' err0' ids' r t chunks D]; intros I.
  - exfalso. absent.
  - pose proof (DomainsRun_calls _ _ _ _ D) as F.
    destruct (domain_calls_observed _ F) as (_ & _ & _ & C & _).
    destruct I as [I | I]; [ | exfalso; absent]. inversion I; subst. split.
    + unfold closed in *. simpl. rewrite !flat_map_app, C. simpl.
      clear. induction (List.length domains'); simpl; auto.
    + exists (CallNewConnect uri (Ok conn)
              :: CallListAllDomains conn libvirt.CONNECT_LIST_DOMAINS_ACTIVE (Ok domains')
              :: t ++ repeat (CallFree (last_handle domains')) (List.length domains')).
      simpl. now rewrite <- !app_assoc.
  - destruct I as [I | I]; [ | exfalso; absent]. inversion I; subst. split; [reflexivity | ].
    now exists [CallNewConnect uri (Ok conn);
                CallListAllDomains conn libvirt.CONNECT_LIST_DOMAINS_ACTIVE (Err err0');
                CallListDomains conn (Err err')].
  - pose proof (IdsRun_calls _ _ _ _ _ D) as F.
    destruct (ids_calls_observed _ F) as (C & _).
    destruct I as [I | I]; [ | exfalso; absent]. inversion I; subst. split.
    + unfold closed in *. simpl. now rewrite !flat_map_app, C.
    + now exists (CallNewConnect uri (Ok conn)
                  :: CallListAllDomains conn libvirt.CONNECT_LIST_DOMAINS_ACTIVE (Err err0')
                  :: CallListDomains conn (Ok ids') :: t).
Qed.

End CollectFromLibvirt_properties.

Section Collect_properties.

Context {W : Type} {env : Collaborators W}.
Implicit Types s : @State W.

(** C4.  When a block statistics query fails in a run of [Collect]: the
    calls after it are releases only, so that no statistics of a later disk
    are queried; [CollectFromLibvirt] returns the error of the query as it
    is; [Collect] logs this error and sends the health gauge with the value
    0 as its last sample; and the chunks of samples of the statistics that
    were returned before the failure are in the channel, before the
    gauge. *)
Theorem disk_failure_fails_cycle e s pre domain path err post :
  trace (Collect e) s = pre ++ CallBlockStats domain path (Err err) :: post ->
  Forall (fun c => is_release c = true) post
  /\ stats_queried post = []
  /\ outcome (CollectFromLibvirt (uri e)) s = Return (Some err)
  /\ outcome (Collect e) s = Return tt
  /\ written (Collect e) s = [{| format := "Failed to scrape metrics: %s"; arg := err |}]
  /\ exists chunks,
       sent (Collect e) s = List.concat chunks ++ [up_sample const_0]
       /\ Forall2 chunk_of chunks (stats_returned pre).
Proof.
  destruct (Collect_observed e s) as (r & t & chunks & -> & D & -> & -> & _ & -> & ->).
  intros ->.
  destruct (fail_fast_split _ _ _ _ err (FleetRun_fail_fast _ _ _ _ D) eq_refl)
    as (-> & _ & R).
  destruct (releases_observed _ R) as (Q & _).
  repeat split; auto.
  exists chunks. split; [reflexivity | ].
  pose proof (FleetRun_chunks _ _ _ _ D) as C.
  unfold stats_returned in C. rewrite flat_map_app in C. simpl in C.
  fold (stats_returned post) in C. rewrite (release_no_stats _ R), app_nil_r in C.
  exact C.
Qed.

(** C7.  [Collect] returns and does not panic.  It sends what
    [CollectFromLibvirt] sends and then the health gauge: with the value 1
    when [CollectFromLibvirt] returns no error, and with the value 0, after
    logging the error, when it returns one.  When the connection cannot be
    opened, the gauge with the value 0 is the only sample. *)
Theorem Collect_reports_health e s :
  outcome (Collect e) s = Return tt
  /\ (exists r,
        outcome (CollectFromLibvirt (uri e)) s = Return r
        /\ sent (Collect e) s
           = sent (CollectFromLibvirt (uri e)) s
             ++ [up_sample (match r with None => const_1 | Some _ => const_0 end)]
        /\ written (Collect e) s
           = match r with
             | None => []
             | Some err => [{| format := "Failed to scrape metrics: %s"; arg := err |}]
             end)
  /\ (forall err,
        In (CallNewConnect (uri e) (Err err)) (trace (Collect e) s) ->
        sent (Collect e) s = [up_sample const_0]).
Proof.
  destruct (Collect_observed e s) as (r & t & chunks & O & D & -> & -> & -> & -> & ->).
  split; [reflexivity | ]. split.
  - exists r. split; [exact O | ]. destruct r; split; reflexivity.
  - intros err I.
    destruct (FleetRun_open_failed _ _ _ _ _ _ D I) as (-> & _ & ->). reflexivity.
Qed.

(** C9.  Among the samples of a run of [Collect] there is exactly one of
    [libvirt_up]; its value is 1 when [CollectFromLibvirt] returned no
    error and 0 otherwise, and the two values differ. *)
Theorem one_health_sample e s :
  filter (fun m => Desc_eqb (desc m) libvirtUpDesc) (sent (Collect e) s)
  = [up_sample (health (outcome (CollectFromLibvirt (uri e)) s))]
  /\ const_1 <> const_0.
Proof.
  split; [ | discriminate].
  destruct (Collect_observed e s) as (r & t & chunks & -> & D & _ & _ & _ & -> & _).
  rewrite filter_app, (chunks_not_health _ _ (FleetRun_chunks _ _ _ _ D)).
  reflexivity.
Qed.

End Collect_properties.

(** * Scenarios *)

(** The end-to-end scenario: one domain "vm1" with the disk vda on /a.img,
    of which only the bytes read are reported: two samples. *)
Example vm1_end_to_end :
  sent (Collect (env := scripted vm1_script) the_exporter) (init tt)
  = [ {| desc := libvirtBlockRdBytesDesc; valType := CounterValue;
         val := float64_of_int 1024; labelValues := ["vm1"; "/a.img"; "vda"] |};
      up_sample const_1 ]
  /\ fqName libvirtBlockRdBytesDesc = "libvirt_block_stats_read_bytes_total"
  /\ fqName libvirtUpDesc = "libvirt_up"
  /\ float64_to_int (float64_of_int 1024) = Some 1024%Z
  /\ float64_to_int const_1 = Some 1%Z.
Proof. repeat split; reflexivity. Qed.

(** The counter "errors" of the statistics is not mapped. *)
Example read_time_only :
  sent (Collect (env := scripted read_time_script) the_exporter) (init tt)
  = [ {| desc := libvirtBlockRdTotalTimesDesc; valType := CounterValue;
         val := S754_finite false 5629499534213120 (-51);
         labelValues := ["vm1"; "/a.img"; "vda"] |};
      up_sample const_1 ].
Proof. reflexivity. Qed.

(** C1, as stated, fails: the bulk listing fails on a broken connection, the
    identifiers are listed all the same, and no error is returned. *)
Lemma broken_bulk_listing_falls_back : ~ only_no_support_falls_back.
Proof.
  intros H.
  destruct (H unit (scripted broken_bulk_script) "qemu:///system" (init tt)
              the_conn libvirt.CONNECT_LIST_DOMAINS_ACTIVE broken_pipe) as [O _].
  - vm_compute. right. left. reflexivity.
  - reflexivity.
  - vm_compute in O. discriminate O.
Qed.

Lemma fallback_on_any_bulk_error_witness :
  In (CallListAllDomains the_conn libvirt.CONNECT_LIST_DOMAINS_ACTIVE (Err broken_pipe))
     (trace (CollectFromLibvirt (env := scripted broken_bulk_script) "qemu:///system")
            (init tt))
  /\ fallback_taken
       (trace (CollectFromLibvirt (env := scripted broken_bulk_script) "qemu:///system")
              (init tt)) = true
  /\ outcome (CollectFromLibvirt (env := scripted broken_bulk_script) "qemu:///system")
             (init tt) = Return None.
Proof.
  assert (I : In (CallListAllDomains the_conn libvirt.CONNECT_LIST_DOMAINS_ACTIVE
                    (Err broken_pipe))
                 (trace (CollectFromLibvirt (env := scripted broken_bulk_script)
                           "qemu:///system") (init tt))).
  { vm_compute. right. left. reflexivity. }
  split; [exact I | ]. split; [ | reflexivity].
  apply (proj1 (fallback_on_any_bulk_error (env := scripted broken_bulk_script)
                  "qemu:///system" (init tt) the_conn _ _ I)).
  exists broken_pipe. reflexivity.
Defined.

(** C4 in the scenario of three disks of which the second fails: the third
    is not queried, and the handle and the connection are released. *)
Lemma disk_failure_fails_cycle_witness :
  trace (Collect (env := scripted three_disks_script) the_exporter) (init tt)
  = [ CallNewConnect "qemu:///system" (Ok the_conn);
      CallListAllDomains the_conn libvirt.CONNECT_LIST_DOMAINS_ACTIVE (Ok [handle 1]);
      CallGetName (handle 1) (Ok "vm1");
      CallGetXMLDesc (handle 1) 0 (Ok "<domain/>");
      CallUnmarshal "<domain/>"
        (Ok (descriptor [disk_of "/a.img" "vda"; disk_of "/b.img" "vdb";
                         disk_of "/c.img" "vdc"]));
      CallBlockStats (handle 1) "vda" (Ok read_1024) ]
    ++ CallBlockStats (handle 1) "vdb" (Err no_device)
    :: [ CallFree (handle 1); CallClose the_conn ]
  /\ outcome (CollectFromLibvirt (env := scripted three_disks_script) "qemu:///system")
             (init tt) = Return (Some no_device)
  /\ written (Collect (env := scripted three_disks_script) the_exporter) (init tt)
     = [{| format := "Failed to scrape metrics: %s"; arg := no_device |}]
  /\ exists chunks,
       sent (Collect (env := scripted three_disks_script) the_exporter) (init tt)
       = List.concat chunks ++ [up_sample const_0]
       /\ Forall2 chunk_of chunks [read_1024].
Proof.
  assert (T : trace (Collect (env := scripted three_disks_script) the_exporter) (init tt)
              = [ CallNewConnect "qemu:///system" (Ok the_conn);
                  CallListAllDomains the_conn libvirt.CONNECT_LIST_DOMAINS_ACTIVE
                    (Ok [handle 1]);
                  CallGetName (handle 1) (Ok "vm1");
                  CallGetXMLDesc (handle 1) 0 (Ok "<domain/>");
                  CallUnmarshal "<domain/>"
                    (Ok (descriptor [disk_of "/a.img" "vda"; disk_of "/b.img" "vdb";
                                     disk_of "/c.img" "vdc"]));
                  CallBlockStats (handle 1) "vda" (Ok read_1024) ]
                ++ CallBlockStats (handle 1) "vdb" (Err no_device)
                :: [ CallFree (handle 1); CallClose the_conn ])
    by reflexivity.
  split; [exact T | ].
  destruct (disk_failure_fails_cycle (env := scripted three_disks_script)
              the_exporter (init tt) _ _ _ _ _ T) as (_ & _ & O & _ & L & C).
  split; [exact O | ]. split; [exact L | exact C].
Defined.

(** C5 in the scenario of the identifiers 3, 7 and 9, where the lookup of 7
    fails: the domains 3 and 9 are collected, in this order, and no error is
    returned. *)
Lemma lookup_failures_are_skipped_witness :
  In (CallListDomains the_conn (Ok [3; 7; 9]%Z))
     (trace (CollectFromLibvirt (env := scripted fallback_script) "qemu:///system") (init tt))
  /\ In (CallLookupDomainById the_conn 7 (Err no_domain))
        (trace (CollectFromLibvirt (env := scripted fallback_script) "qemu:///system")
               (init tt))
  /\ lookups (trace (CollectFromLibvirt (env := scripted fallback_script) "qemu:///system")
                    (init tt)) = [3; 7; 9]%Z
  /\ collected (trace (CollectFromLibvirt (env := scripted fallback_script) "qemu:///system")
                      (init tt))
     = looked_up (trace (CollectFromLibvirt (env := scripted fallback_script)
                           "qemu:///system") (init tt))
  /\ looked_up (trace (CollectFromLibvirt (env := scripted fallback_script) "qemu:///system")
                      (init tt)) = [handle 3; handle 9]
  /\ outcome (CollectFromLibvirt (env := scripted fallback_script) "qemu:///system")
             (init tt) = Return None.
Proof.
  assert (I : In (CallListDomains the_conn (Ok [3; 7; 9]%Z))
                 (trace (CollectFromLibvirt (env := scripted fallback_script)
                           "qemu:///system") (init tt))).
  { vm_compute. right. right. left. reflexivity. }
  assert (O : outcome (CollectFromLibvirt (env := scripted fallback_script)
                         "qemu:///system") (init tt) = Return None) by reflexivity.
  destruct (lookup_failures_are_skipped (env := scripted fallback_script)
              "qemu:///system" (init tt) _ _ I) as (_ & L & C & _ & _).
  split; [exact I | ].
  split; [vm_compute; do 9 right; left; reflexivity | ].
  split; [exact (L O) | ]. split; [exact C | ]. split; [reflexivity | exact O].
Defined.

(** C6 fails in the bulk tier.  The listing returns the handles 1 and 2 and
    both domains are collected; then [Free] is called twice on the handle 2
    and never on the handle 1. *)
Theorem bulk_tier_releases_last_handle_only :
  collected (trace (CollectFromLibvirt (env := scripted two_handles_script)
                      "qemu:///system") (init tt))
  = [handle 1; handle 2]
  /\ freed (trace (CollectFromLibvirt (env := scripted two_handles_script)
                     "qemu:///system") (init tt))
     = [handle 2; handle 2]
  /\ occurrences (handle 1)
       (freed (trace (CollectFromLibvirt (env := scripted two_handles_script)
                        "qemu:///system") (init tt))) = 0%nat
  /\ occurrences (handle 2)
       (freed (trace (CollectFromLibvirt (env := scripted two_handles_script)
                        "qemu:///system") (init tt))) = 2%nat
  /\ closed (trace (CollectFromLibvirt (env := scripted two_handles_script)
                      "qemu:///system") (init tt))
     = [the_conn].
Proof. repeat split; reflexivity. Qed.

(** C7 when the daemon cannot be reached: one sample, the gauge at 0. *)
Lemma Collect_reports_health_witness :
  In (CallNewConnect (uri the_exporter) (Err refused))
     (trace (Collect (env := scripted unreachable_script) the_exporter) (init tt))
  /\ sent (Collect (env := scripted unreachable_script) the_exporter) (init tt)
     = [up_sample const_0]
  /\ outcome (Collect (env := scripted unreachable_script) the_exporter) (init tt)
     = Return tt.
Proof.
  assert (I : In (CallNewConnect (uri the_exporter) (Err refused))
                 (trace (Collect (env := scripted unreachable_script) the_exporter)
                        (init tt))).
  { vm_compute. left. reflexivity. }
  destruct (Collect_reports_health (env := scripted unreachable_script)
              the_exporter (init tt)) as (O & _ & S).
  split; [exact I | ]. split; [exact (S refused I) | exact O].
Defined.

(** C3 for a domain with two disks: 1024 bytes read on vda, 2.5e9 ns of
    read time on vdb. *)
Lemma sample_values_witness :
  stats_returned (trace (CollectDomain (env := scripted two_disks_script) (handle 1))
                        (init tt))
  = [read_1024; read_time_2500ms]
  /\ map (fun m => (desc m, val m))
         (sent (CollectDomain (env := scripted two_disks_script) (handle 1)) (init tt))
     = [(libvirtBlockRdBytesDesc, float64_of_int 1024);
        (libvirtBlockRdTotalTimesDesc, S754_finite false 5629499534213120 (-51))]
  /\ exists chunks,
       sent (CollectDomain (env := scripted two_disks_script) (handle 1)) (init tt)
       = List.concat chunks
       /\ Forall2 (fun chunk st =>
                    map (fun m => (desc m, val m)) chunk
                    = flat_map
                        (fun c =>
                           if flag c st
                           then [(desc_of c,
                                  if is_time c
                                  then float64_div (float64_of_int (raw c st)) const_1e9
                                  else float64_of_int (raw c st))]
                           else [])
                        counters)
                  chunks
                  (stats_returned
                     (trace (CollectDomain (env := scripted two_disks_script) (handle 1))
                            (init tt))).
Proof.
  split; [reflexivity | ]. split; [reflexivity | ].
  exact (proj1 (sample_values (env := scripted two_disks_script) (handle 1) (init tt))).
Defined.

(** C8 for the same domain: the sample of vda carries the labels of vda and
    that of vdb the labels of vdb. *)
Lemma sample_labels_witness :
  In (CallGetName (handle 1) (Ok "vm1"))
     (trace (CollectDomain (env := scripted two_disks_script) (handle 1)) (init tt))
  /\ In (CallUnmarshal "<domain/>"
           (Ok (descriptor [disk_of "/a.img" "vda"; disk_of "/b.img" "vdb"])))
        (trace (CollectDomain (env := scripted two_disks_script) (handle 1)) (init tt))
  /\ stats_answered
       (trace (CollectDomain (env := scripted two_disks_script) (handle 1)) (init tt))
     = [("vda", read_1024); ("vdb", read_time_2500ms)]
  /\ map (fun m => (desc m, valType m, labelValues m))
         (sent (CollectDomain (env := scripted two_disks_script) (handle 1)) (init tt))
     = [(libvirtBlockRdBytesDesc, CounterValue, ["vm1"; "/a.img"; "vda"]);
        (libvirtBlockRdTotalTimesDesc, CounterValue, ["vm1"; "/b.img"; "vdb"])]
  /\ exists chunks,
       sent (CollectDomain (env := scripted two_disks_script) (handle 1)) (init tt)
       = List.concat chunks
       /\ Forall2 (fun chunk '(disk, (path, st)) =>
                    path = libvirt_schema.Device (libvirt_schema.Target disk)
                    /\ map (fun m => (desc m, valType m, labelValues m)) chunk
                       = flat_map
                           (fun c =>
                              if flag c st
                              then [(desc_of c, CounterValue,
                                     ["vm1";
                                      libvirt_schema.File (libvirt_schema.Source disk);
                                      libvirt_schema.Device (libvirt_schema.Target disk)])]
                              else [])
                           counters)
                  chunks
                  (combine [disk_of "/a.img" "vda"; disk_of "/b.img" "vdb"]
                           (stats_answered
                              (trace (CollectDomain (env := scripted two_disks_script)
                                        (handle 1)) (init tt)))).
Proof.
  assert (N : In (CallGetName (handle 1) (Ok "vm1"))
                 (trace (CollectDomain (env := scripted two_disks_script) (handle 1))
                        (init tt))).
  { vm_compute. left. reflexivity. }
  assert (U : In (CallUnmarshal "<domain/>"
                    (Ok (descriptor [disk_of "/a.img" "vda"; disk_of "/b.img" "vdb"])))
                 (trace (CollectDomain (env := scripted two_disks_script) (handle 1))
                        (init tt))).
  { vm_compute. right. right. left. reflexivity. }
  split; [exact N | ]. split; [exact U | ]. split; [reflexivity | ].
  split; [reflexivity | ].
  exact (proj1 (sample_labels (env := scripted two_disks_script) (handle 1) (init tt)
                  _ _ _ N U)).
Defined.

(** C10 for a domain whose descriptor lists no disk. *)
Lemma no_disks_no_samples_witness :
  In (CallUnmarshal "<domain/>" (Ok (descriptor [])))
     (trace (CollectDomain (env := scripted two_handles_script) (handle 1)) (init tt))
  /\ libvirt_schema.Disks (libvirt_schema.Devices (descriptor [])) = []
  /\ outcome (CollectDomain (env := scripted two_handles_script) (handle 1)) (init tt)
     = Return None
  /\ sent (CollectDomain (env := scripted two_handles_script) (handle 1)) (init tt) = []
  /\ stats_queried
       (trace (CollectDomain (env := scripted two_handles_script) (handle 1)) (init tt))
     = [].
Proof.
  assert (U : In (CallUnmarshal "<domain/>" (Ok (descriptor [])))
                 (trace (CollectDomain (env := scripted two_handles_script) (handle 1))
                        (init tt))).
  { vm_compute. right. right. left. reflexivity. }
  split; [exact U | ]. split; [reflexivity | ].
  exact (no_disks_no_samples (env := scripted two_handles_script) (handle 1) (init tt)
           _ _ U eq_refl).
Defined.

(** * Further properties of the exporter *)

(** ** More on sequences of calls *)

Lemma FleetRun_ids_failed uri r t chunks conn err :
  FleetRun uri r t chunks -> In (CallListDomains conn (Err err)) t ->
  r = Some err /\ chunks = []
  /\ exists err0,
       t = [CallNewConnect uri (Ok conn);
            CallListAllDomains conn libvirt.CONNECT_LIST_DOMAINS_ACTIVE (Err err0);
            CallListDomains conn (Err err);
            CallClose conn].
Proof.
  destruct 1 as [err' | conn' domains' r t chunks D | conn' err0' err'
                 | conn' err0' ids' r t chunks D];
    intros I.
  - exfalso. absent.
  - pose proof (DomainsRun_calls _ _ _ _ D) as F. exfalso. absent.
  - destruct I as [I | [I | [I | I]]]; [discriminate I | discriminate I | | exfalso; absent].
    inversion I; subst. eauto.
  - pose proof (IdsRun_calls _ _ _ _ _ D) as F. exfalso. absent.
Qed.

Lemma ids_calls_no_connect t :
  Forall (fun c => is_ids_call c = true) t -> connects t = [].
Proof.
  induction 1 as [ | c t H _ IH]; [reflexivity | ].
  unfold connects in *. simpl. rewrite IH. destruct c; try discriminate; reflexivity.
Qed.

Lemma domain_call_no_conn c : is_domain_call c = true -> call_conn c = None.
Proof. destruct c; simpl; try discriminate; reflexivity. Qed.

Lemma IdsRun_conn conn ids r t chunks :
  IdsRun conn ids r t chunks ->
  Forall (fun c => forall conn', call_conn c = Some conn' -> conn' = conn) t.
Proof.
  assert (DC : forall t', Forall (fun c => is_domain_call c = true) t' ->
               Forall (fun c => forall conn', call_conn c = Some conn' -> conn' = conn) t').
  { intros t' F. eapply Forall_impl; [ | exact F].
    intros c H conn' E. rewrite (domain_call_no_conn _ H) in E. discriminate. }
  induction 1.
  - constructor.
  - constructor; [ | assumption]. simpl. intros conn' E. now inversion E.
  - constructor; [simpl; intros conn' E; now inversion E | ].
    apply Forall_app. split; [eapply DC, DomainRun_calls; eassumption | ].
    constructor; [discriminate | constructor].
  - constructor; [simpl; intros conn' E; now inversion E | ].
    apply Forall_app. split; [eapply DC, DomainRun_calls; eassumption | ].
    constructor; [discriminate | assumption].
Qed.

Lemma DisksRun_own_handle domain name disks r t chunks :
  DisksRun domain name disks r t chunks ->
  Forall (fun c => forall d, call_domain c = Some d -> d = domain) t.
Proof.
  induction 1; repeat constructor; auto; simpl; intros d E; now inversion E.
Qed.

Lemma DomainRun_own_handle domain r t chunks :
  DomainRun domain r t chunks ->
  Forall (fun c => forall d, call_domain c = Some d -> d = domain) t.
Proof.
  destruct 1; repeat constructor; try (simpl; intros d E; now inversion E).
  eapply DisksRun_own_handle; eassumption.
Qed.

(** *** Handles held *)

Lemma held_after_app n t1 t2 :
  held_after n (t1 ++ t2) = held_after (held_after n t1) t2.
Proof. apply fold_left_app. Qed.

Lemma peak_held_ge n t : n <= peak_held n t.
Proof. destruct t; simpl; lia. Qed.

Lemma peak_held_app t1 :
  forall n t2,
    peak_held n (t1 ++ t2)
    = Nat.max (peak_held n t1) (peak_held (held_after n t1) t2).
Proof.
  induction t1 as [ | c t1 IH]; intros n t2; simpl.
  - pose proof (peak_held_ge n t2). lia.
  - rewrite IH. unfold held_after. simpl. lia.
Qed.

Lemma domain_calls_hold n t :
  Forall (fun c => is_domain_call c = true) t ->
  held_after n t = n /\ peak_held n t = n.
Proof.
  induction 1 as [ | c t H _ (IH1 & IH2)]; [now split | ].
  assert (E : hold n c = n) by (destruct c; try discriminate; reflexivity).
  unfold held_after in *. simpl. rewrite E, IH1, IH2. split; lia.
Qed.

(** In the loop over the identifiers, a handle is released before the next
    is looked up. *)
Lemma IdsRun_holds conn ids r t chunks :
  IdsRun conn ids r t chunks ->
  forall n, held_after n t = n /\ peak_held n t <= S n.
Proof.
  induction 1 as [ | id rest err r t chunks _ IH
                   | id rest domain err t chunks D
                   | id rest domain t1 chunks1 r t2 chunks2 D _ IH]; intros n.
  - simpl. split; [reflexivity | lia].
  - destruct (IH n) as (H1 & H2). unfold held_after in *. simpl. split; [exact H1 | lia].
  - destruct (domain_calls_hold (S n) _ (DomainRun_calls _ _ _ _ D)) as (H1 & H2).
    split.
    + change (held_after (S n) (t ++ [CallFree domain]) = n).
      now rewrite held_after_app, H1.
    + change (Nat.max n (peak_held (S n) (t ++ [CallFree domain])) <= S n).
      rewrite peak_held_app, H1, H2. cbn [peak_held hold Nat.pred]. lia.
  - destruct (domain_calls_hold (S n) _ (DomainRun_calls _ _ _ _ D)) as (H1 & H2).
    destruct (IH n) as (H3 & H4). split.
    + change (held_after (S n) (t1 ++ CallFree domain :: t2) = n).
      rewrite held_after_app, H1. exact H3.
    + change (Nat.max n (peak_held (S n) (t1 ++ CallFree domain :: t2)) <= S n).
      rewrite peak_held_app, H1, H2. cbn [peak_held hold Nat.pred]. lia.
Qed.

(** *** Counting samples *)

Lemma length_block_samples name disk st :
  List.length (block_samples name disk st) = flags_set st.
Proof.
  unfold block_samples, flags_set. induction counters as [ | c l IH]; [reflexivity | ].
  simpl. rewrite length_app, IH. destruct (flag c st); reflexivity.
Qed.

Lemma flags_set_le st : flags_set st <= 8.
Proof.
  unfold flags_set, counters. simpl.
  repeat match goal with |- context [if ?b then _ else _] => destruct b end; simpl; lia.
Qed.

Lemma length_chunks chunks sts :
  Forall2 chunk_of chunks sts ->
  List.length (List.concat chunks) = list_sum (map flags_set sts).
Proof.
  induction 1 as [ | chunk st chunks sts (name & disk & ->) _ IH]; [reflexivity | ].
  simpl. now rewrite length_app, IH, length_block_samples.
Qed.

Lemma chunks_described chunks sts (P : Metric -> Prop) :
  (forall name disk st c, P (block_sample name disk st c)) ->
  Forall2 chunk_of chunks sts -> Forall P (List.concat chunks).
Proof.
  intros HP. induction 1 as [ | chunk st chunks sts (name & disk & ->) _ IH];
    [constructor | ].
  simpl. apply Forall_app. split; [ | exact IH].
  apply Forall_forall. intros m I. apply in_block_samples in I.
  destruct I as (c & _ & ->). apply HP.
Qed.

(** ** Opening and listing *)

Section Further_properties.

Context {W : Type} {env : Collaborators W}.
Implicit Types s : @State W.

(** When the connection cannot be opened, [CollectFromLibvirt] makes no
    other call, closes nothing, sends nothing and returns the error of
    [NewConnect]. *)
Theorem open_failure_stops uri s uri' err :
  In (CallNewConnect uri' (Err err)) (trace (CollectFromLibvirt uri) s) ->
  trace (CollectFromLibvirt uri) s = [CallNewConnect uri (Err err)]
  /\ outcome (CollectFromLibvirt uri) s = Return (Some err)
  /\ sent (CollectFromLibvirt uri) s = [].
Proof.
  destruct (CollectFromLibvirt_observed uri s) as (r & t & chunks & -> & -> & -> & _ & D).
  intros I. destruct (FleetRun_open_failed _ _ _ _ _ _ D I) as (-> & -> & ->).
  now repeat split.
Qed.

(** When the listing of the identifiers fails too, [CollectFromLibvirt]
    returns the error of that listing, not the error of the bulk listing;
    it has made four calls, the last of which closes the connection, and
    has sent nothing. *)
Theorem id_listing_failure uri s conn err :
  In (CallListDomains conn (Err err)) (trace (CollectFromLibvirt uri) s) ->
  (exists err0,
     trace (CollectFromLibvirt uri) s
     = [CallNewConnect uri (Ok conn);
        CallListAllDomains conn libvirt.CONNECT_LIST_DOMAINS_ACTIVE (Err err0);
        CallListDomains conn (Err err);
        CallClose conn])
  /\ outcome (CollectFromLibvirt uri) s = Return (Some err)
  /\ sent (CollectFromLibvirt uri) s = [].
Proof.
  destruct (CollectFromLibvirt_observed uri s) as (r & t & chunks & -> & -> & -> & _ & D).
  intros I. destruct (FleetRun_ids_failed _ _ _ _ _ _ D I) as (-> & -> & err0 & ->).
  split; [now exists err0 | now split].
Qed.

(** A listing without domains, in either tier: [Collect] sends the health
    gauge with the value 1 and nothing else, logs nothing, releases no
    handle and closes the connection. *)
Theorem empty_listing e s conn flags :
  In (CallListAllDomains conn flags (Ok [])) (trace (Collect e) s)
  \/ In (CallListDomains conn (Ok [])) (trace (Collect e) s) ->
  sent (Collect e) s = [up_sample const_1]
  /\ written (Collect e) s = []
  /\ freed (trace (Collect e) s) = []
  /\ closed (trace (Collect e) s) = [conn].
Proof.
  destruct (Collect_observed e s) as (r & t & chunks & _ & D & _ & -> & _ & -> & ->).
  intros [I | I].
  - destruct (FleetRun_bulk_listed _ _ _ _ _ _ _ D I) as (t' & -> & DR).
    inversion DR; subst. now repeat split.
  - destruct (FleetRun_ids_listed _ _ _ _ _ _ D I) as (err0 & t' & -> & DR).
    inversion DR; subst. now repeat split.
Qed.

(** Every call on a connection is made on the connection [NewConnect]
    returned. *)
Theorem calls_on_opened_connection uri s conn :
  In (CallNewConnect uri (Ok conn)) (trace (CollectFromLibvirt uri) s) ->
  Forall (fun c => forall conn', call_conn c = Some conn' -> conn' = conn)
         (trace (CollectFromLibvirt uri) s).
Proof.
  destruct (CollectFromLibvirt_observed uri s) as (r & t & chunks & _ & -> & _ & _ & D).
  assert (DC : forall t', Forall (fun c => is_domain_call c = true) t' ->
               Forall (fun c => forall conn', call_conn c = Some conn' -> conn' = conn) t').
  { intros t' F. eapply Forall_impl; [ | exact F].
    intros c H conn' E. rewrite (domain_call_no_conn _ H) in E. discriminate. }
  destruct D as [err' | conn' domains' r t chunks D | conn' err0' err'
                 | conn' err0' ids' r t chunks D]; intros I.
  - exfalso. absent.
  - pose proof (DomainsRun_calls _ _ _ _ D) as F.
    destruct I as [I | I]; [ | exfalso; absent]. inversion I; subst.
    constructor; [discriminate | ].
    constructor; [simpl; intros ? E; now inversion E | ].
    apply Forall_app. split; [now apply DC | ].
    apply Forall_app. split.
    + apply Forall_forall. intros c IN. apply repeat_spec in IN. subst. discriminate.
    + constructor; [simpl; intros ? E; now inversion E | constructor].
  - destruct I as [I | I]; [ | exfalso; absent]. inversion I; subst.
    repeat constructor; simpl; intros ? E; now inversion E.
  - pose proof (IdsRun_calls _ _ _ _ _ D) as F.
    destruct I as [I | I]; [ | exfalso; absent]. inversion I; subst.
    constructor; [discriminate | ].
    constructor; [simpl; intros ? E; now inversion E | ].
    constructor; [simpl; intros ? E; now inversion E | ].
    apply Forall_app. split; [eapply IdsRun_conn; eassumption | ].
    constructor; [simpl; intros ? E; now inversion E | constructor].
Qed.

(** The exporter [NewLibvirtExporter] makes for a URI comes without an
    error, and a run of its [Collect] opens one connection, to this URI, by
    its first call. *)
Theorem fresh_connection_per_cycle u s :
  snd (NewLibvirtExporter u) = None
  /\ connects (trace (Collect (fst (NewLibvirtExporter u))) s) = [u]
  /\ exists res rest,
       trace (Collect (fst (NewLibvirtExporter u))) s = CallNewConnect u res :: rest.
Proof.
  split; [reflexivity | ].
  destruct (Collect_observed (fst (NewLibvirtExporter u)) s)
    as (r & t & chunks & _ & D & _ & -> & _).
  simpl in D.
  destruct D as [err' | conn' domains' r t chunks D | conn' err0' err'
                 | conn' err0' ids' r t chunks D].
  - split; [reflexivity | eauto].
  - split; [ | eauto].
    pose proof (ids_calls_no_connect _
                  (Forall_impl _ domain_call_ids_call (DomainsRun_calls _ _ _ _ D))) as C1.
    assert (C2 : connects (repeat (CallFree (last_handle domains'))
                                  (List.length domains')) = []).
    { apply ids_calls_no_connect, Forall_forall. intros c IN.
      apply repeat_spec in IN. now subst. }
    unfold connects in *. simpl. now rewrite !flat_map_app, C1, C2.
  - split; [reflexivity | eauto].
  - split; [ | eauto].
    pose proof (ids_calls_no_connect _ (IdsRun_calls _ _ _ _ _ D)) as C1.
    unfold connects in *. simpl. now rewrite !flat_map_app, C1.
Qed.

(** ** The tiers of the enumeration *)

(** In the bulk tier the domains are collected in the order of the listing:
    a first part of the listing, and the whole listing when no error is
    returned; no identifier is listed or looked up. *)
Theorem bulk_tier_collects_in_order uri s conn flags domains :
  In (CallListAllDomains conn flags (Ok domains)) (trace (CollectFromLibvirt uri) s) ->
  (exists n, collected (trace (CollectFromLibvirt uri) s) = firstn n domains)
  /\ (outcome (CollectFromLibvirt uri) s = Return None ->
      collected (trace (CollectFromLibvirt uri) s) = domains)
  /\ lookups (trace (CollectFromLibvirt uri) s) = []
  /\ fallback_taken (trace (CollectFromLibvirt uri) s) = false.
Proof.
  destruct (CollectFromLibvirt_observed uri s) as (r & t & chunks & -> & -> & _ & _ & D).
  intros I.
  destruct (FleetRun_bulk_listed _ _ _ _ _ _ _ D I) as (t' & -> & DR).
  destruct (domain_calls_observed _ (DomainsRun_calls _ _ _ _ DR)) as (L & _ & _ & _ & F).
  destruct (DomainsRun_collected _ _ _ _ DR) as (n & C1 & C2).
  pose proof (repeat_Free_releases (last_handle domains) (List.length domains)) as R.
  destruct (releases_observed _ R) as (_ & C3 & L3 & _).
  pose proof (releases_no_fallback _ R) as F3.
  unfold collected, lookups, fallback_taken in *. simpl.
  rewrite !flat_map_app, !existsb_app, C3, L, L3, F, F3. simpl. rewrite !app_nil_r.
  split; [now exists n | ]. split; [ | now split].
  intros E. apply C2. now inversion E.
Qed.

(** In the fallback tier no handle is held when the run ends, and never
    more than one handle is held at a time: a handle is released before the
    next identifier is looked up. *)
Theorem fallback_holds_one_handle uri s conn ids :
  In (CallListDomains conn (Ok ids)) (trace (CollectFromLibvirt uri) s) ->
  held_after 0 (trace (CollectFromLibvirt uri) s) = 0%nat
  /\ peak_held 0 (trace (CollectFromLibvirt uri) s) <= 1.
Proof.
  destruct (CollectFromLibvirt_observed uri s) as (r & t & chunks & _ & -> & _ & _ & D).
  intros I.
  destruct (FleetRun_ids_listed _ _ _ _ _ _ D I) as (err0 & t' & -> & DR).
  destruct (IdsRun_holds _ _ _ _ _ DR 0) as (H1 & H2). split.
  - change (held_after 0 (t' ++ [CallClose conn]) = 0%nat).
    now rewrite held_after_app, H1.
  - change (Nat.max 0 (Nat.max 0 (Nat.max 0 (peak_held 0 (t' ++ [CallClose conn])))) <= 1).
    rewrite peak_held_app, H1. cbn [peak_held hold]. lia.
Qed.

(** ** One domain *)

(** [CollectDomain] calls nothing but [GetName], [GetXMLDesc], [Unmarshal]
    and [BlockStats], every call on a handle is on the handle it was given,
    and it does not release this handle. *)
Theorem CollectDomain_keeps_to_its_handle (domain : libvirt.Domain) s :
  Forall (fun c => is_domain_call c = true
                   /\ forall d, call_domain c = Some d -> d = domain)
         (trace (CollectDomain domain) s)
  /\ freed (trace (CollectDomain domain) s) = [].
Proof.
  destruct (CollectDomain_observed domain s) as (r & t & chunks & _ & -> & _ & D).
  pose proof (DomainRun_calls _ _ _ _ D) as F1.
  pose proof (DomainRun_own_handle _ _ _ _ D) as F2.
  split; [ | apply (domain_calls_observed _ F1)].
  rewrite Forall_forall in *. intros c I. split; [now apply F1 | now apply F2].
Qed.

(** The number of samples [CollectDomain] sends is the number of flags set,
    among those of the eight counters, in the statistics records that were
    returned: at most eight per record, and none for the counter of
    errors. *)
Theorem sample_count (domain : libvirt.Domain) s :
  List.length (sent (CollectDomain domain) s)
  = list_sum (map flags_set (stats_returned (trace (CollectDomain domain) s)))
  /\ List.length (sent (CollectDomain domain) s)
     <= 8 * List.length (stats_returned (trace (CollectDomain domain) s)).
Proof.
  destruct (CollectDomain_observed domain s) as (r & t & chunks & _ & -> & -> & D).
  pose proof (length_chunks _ _ (DomainRun_chunks _ _ _ _ D)) as L.
  split; [exact L | ]. rewrite L. clear.
  induction (stats_returned t) as [ | st sts IH]; simpl; [lia | ].
  pose proof (flags_set_le st). lia.
Qed.

(** ** The whole cycle *)

(** Over a whole run of [Collect] the samples are one chunk per statistics
    record returned, of whatever domain, in the order of the queries, with
    one sample per counter whose flag is set, and then the health gauge. *)
Theorem cycle_samples_follow_statistics e s :
  exists chunks,
    sent (Collect e) s
    = List.concat chunks ++ [up_sample (health (outcome (CollectFromLibvirt (uri e)) s))]
    /\ Forall2 (fun chunk st =>
                 forall c, count_desc (desc_of c) chunk
                           = if flag c st then 1%nat else 0%nat)
               chunks (stats_returned (trace (Collect e) s)).
Proof.
  destruct (Collect_observed e s) as (r & t & chunks & -> & D & _ & -> & _ & -> & _).
  exists chunks. split; [reflexivity | ].
  eapply Forall2_impl; [ | eapply FleetRun_chunks; eassumption].
  intros chunk st (name & disk & ->) c. apply count_block_samples.
Qed.

(** Every sample of a run of [Collect] is of a descriptor that [Describe]
    sends, and has as many label values as its descriptor has labels; the
    descriptors [Describe] sends have names that differ from one another. *)
Theorem Describe_covers_Collect e s (ch0 : list Desc) :
  Forall (fun m => In (desc m) (Describe e ch0)
                   /\ List.length (labelValues m)
                      = List.length (variableLabels (desc m)))
         (sent (Collect e) s)
  /\ NoDup (map fqName (Describe e [])).
Proof.
  split.
  - destruct (Collect_observed e s) as (r & t & chunks & _ & D & _ & _ & _ & -> & _).
    apply Forall_app. split.
    + eapply chunks_described; [ | eapply FleetRun_chunks; eassumption].
      intros name disk st c. split; [ | now destruct c].
      apply in_or_app. right. destruct c; simpl; tauto.
    + constructor; [ | constructor]. split; [ | reflexivity].
      apply in_or_app. right. now left.
  - simpl. repeat (constructor; [simpl; intros H;
      repeat (destruct H as [H | H]; [discriminate H | ]); exact H | ]).
    constructor.
Qed.

End Further_properties.

(** ** Scenarios of the further properties *)

Lemma open_failure_stops_witness :
  In (CallNewConnect "qemu:///system" (Err refused))
     (trace (CollectFromLibvirt (env := scripted unreachable_script) "qemu:///system")
            (init tt))
  /\ trace (CollectFromLibvirt (env := scripted unreachable_script) "qemu:///system")
           (init tt)
     = [CallNewConnect "qemu:///system" (Err refused)]
  /\ outcome (CollectFromLibvirt (env := scripted unreachable_script) "qemu:///system")
             (init tt) = Return (Some refused)
  /\ sent (CollectFromLibvirt (env := scripted unreachable_script) "qemu:///system")
          (init tt) = [].
Proof.
  assert (I : In (CallNewConnect "qemu:///system" (Err refused))
                 (trace (CollectFromLibvirt (env := scripted unreachable_script)
                           "qemu:///system") (init tt))).
  { vm_compute. left. reflexivity. }
  split; [exact I | ].
  exact (open_failure_stops (env := scripted unreachable_script) _ _ _ _ I).
Defined.

Lemma id_listing_failure_witness :
  In (CallListDomains the_conn (Err broken_pipe))
     (trace (CollectFromLibvirt (env := scripted no_listing_script) "qemu:///system")
            (init tt))
  /\ outcome (CollectFromLibvirt (env := scripted no_listing_script) "qemu:///system")
             (init tt) = Return (Some broken_pipe)
  /\ sent (CollectFromLibvirt (env := scripted no_listing_script) "qemu:///system")
          (init tt) = [].
Proof.
  assert (I : In (CallListDomains the_conn (Err broken_pipe))
                 (trace (CollectFromLibvirt (env := scripted no_listing_script)
                           "qemu:///system") (init tt))).
  { vm_compute. right. right. left. reflexivity. }
  split; [exact I | ].
  exact (proj2 (id_listing_failure (env := scripted no_listing_script) _ _ _ _ I)).
Defined.

Lemma empty_listing_witness :
  (In (CallListAllDomains the_conn libvirt.CONNECT_LIST_DOMAINS_ACTIVE (Ok []))
      (trace (Collect (env := scripted broken_bulk_script) the_exporter) (init tt))
   \/ In (CallListDomains the_conn (Ok []))
         (trace (Collect (env := scripted broken_bulk_script) the_exporter) (init tt)))
  /\ sent (Collect (env := scripted broken_bulk_script) the_exporter) (init tt)
     = [up_sample const_1]
  /\ written (Collect (env := scripted broken_bulk_script) the_exporter) (init tt) = []
  /\ freed (trace (Collect (env := scripted broken_bulk_script) the_exporter) (init tt))
     = []
  /\ closed (trace (Collect (env := scripted broken_bulk_script) the_exporter) (init tt))
     = [the_conn].
Proof.
  assert (I : In (CallListAllDomains the_conn libvirt.CONNECT_LIST_DOMAINS_ACTIVE (Ok []))
                 (trace (Collect (env := scripted broken_bulk_script) the_exporter)
                        (init tt))
              \/ In (CallListDomains the_conn (Ok []))
                    (trace (Collect (env := scripted broken_bulk_script) the_exporter)
                           (init tt))).
  { right. vm_compute. right. right. left. reflexivity. }
  split; [exact I | ].
  exact (empty_listing (env := scripted broken_bulk_script) _ _ _ _ I).
Defined.

Lemma calls_on_opened_connection_witness :
  In (CallNewConnect "qemu:///system" (Ok the_conn))
     (trace (CollectFromLibvirt (env := scripted fallback_script) "qemu:///system") (init tt))
  /\ Forall (fun c => forall conn', call_conn c = Some conn' -> conn' = the_conn)
            (trace (CollectFromLibvirt (env := scripted fallback_script) "qemu:///system")
                   (init tt)).
Proof.
  assert (I : In (CallNewConnect "qemu:///system" (Ok the_conn))
                 (trace (CollectFromLibvirt (env := scripted fallback_script)
                           "qemu:///system") (init tt))).
  { vm_compute. left. reflexivity. }
  split; [exact I | ].
  exact (calls_on_opened_connection (env := scripted fallback_script) _ _ _ I).
Defined.

Lemma connection_closed_once_witness :
  In (CallNewConnect "qemu:///system" (Ok the_conn))
     (trace (CollectFromLibvirt (env := scripted three_disks_script) "qemu:///system")
            (init tt))
  /\ closed (trace (CollectFromLibvirt (env := scripted three_disks_script)
                      "qemu:///system") (init tt)) = [the_conn]
  /\ exists t',
       trace (CollectFromLibvirt (env := scripted three_disks_script) "qemu:///system")
             (init tt) = t' ++ [CallClose the_conn].
Proof.
  assert (I : In (CallNewConnect "qemu:///system" (Ok the_conn))
                 (trace (CollectFromLibvirt (env := scripted three_disks_script)
                           "qemu:///system") (init tt))).
  { vm_compute. left. reflexivity. }
  split; [exact I | ].
  exact (connection_closed_once (env := scripted three_disks_script) _ _ _ I).
Defined.

Lemma bulk_tier_collects_in_order_witness :
  In (CallListAllDomains the_conn libvirt.CONNECT_LIST_DOMAINS_ACTIVE
        (Ok [handle 1; handle 2]))
     (trace (CollectFromLibvirt (env := scripted two_handles_script) "qemu:///system")
            (init tt))
  /\ collected (trace (CollectFromLibvirt (env := scripted two_handles_script)
                         "qemu:///system") (init tt))
     = [handle 1; handle 2]
  /\ lookups (trace (CollectFromLibvirt (env := scripted two_handles_script)
                       "qemu:///system") (init tt)) = [].
Proof.
  assert (I : In (CallListAllDomains the_conn libvirt.CONNECT_LIST_DOMAINS_ACTIVE
                    (Ok [handle 1; handle 2]))
                 (trace (CollectFromLibvirt (env := scripted two_handles_script)
                           "qemu:///system") (init tt))).
  { vm_compute. right. left. reflexivity. }
  destruct (bulk_tier_collects_in_order (env := scripted two_handles_script) _ _ _ _ _ I)
    as (_ & C & L & _).
  split; [exact I | ]. split; [exact (C eq_refl) | exact L].
Defined.

Lemma bulk_tier_releases_witness :
  In (CallListAllDomains the_conn libvirt.CONNECT_LIST_DOMAINS_ACTIVE
        (Ok [handle 1; handle 2]))
     (trace (CollectFromLibvirt (env := scripted two_handles_script) "qemu:///system")
            (init tt))
  /\ freed (trace (CollectFromLibvirt (env := scripted two_handles_script)
                     "qemu:///system") (init tt))
     = repeat (last_handle [handle 1; handle 2]) 2.
Proof.
  assert (I : In (CallListAllDomains the_conn libvirt.CONNECT_LIST_DOMAINS_ACTIVE
                    (Ok [handle 1; handle 2]))
                 (trace (CollectFromLibvirt (env := scripted two_handles_script)
                           "qemu:///system") (init tt))).
  { vm_compute. right. left. reflexivity. }
  split; [exact I | ].
  exact (proj2 (proj2 (bulk_tier_releases (env := scripted two_handles_script)
                         _ _ _ _ _ I))).
Defined.

Lemma fallback_tier_releases_witness :
  In (CallListDomains the_conn (Ok [3; 7; 9]%Z))
     (trace (CollectFromLibvirt (env := scripted fallback_script) "qemu:///system") (init tt))
  /\ freed (trace (CollectFromLibvirt (env := scripted fallback_script) "qemu:///system")
                  (init tt))
     = looked_up (trace (CollectFromLibvirt (env := scripted fallback_script)
                           "qemu:///system") (init tt)).
Proof.
  assert (I : In (CallListDomains the_conn (Ok [3; 7; 9]%Z))
                 (trace (CollectFromLibvirt (env := scripted fallback_script)
                           "qemu:///system") (init tt))).
  { vm_compute. right. right. left. reflexivity. }
  split; [exact I | ].
  exact (fallback_tier_releases (env := scripted fallback_script) _ _ _ _ I).
Defined.

Lemma fallback_holds_one_handle_witness :
  In (CallListDomains the_conn (Ok [3; 7; 9]%Z))
     (trace (CollectFromLibvirt (env := scripted fallback_script) "qemu:///system") (init tt))
  /\ held_after 0 (trace (CollectFromLibvirt (env := scripted fallback_script)
                            "qemu:///system") (init tt)) = 0%nat
  /\ peak_held 0 (trace (CollectFromLibvirt (env := scripted fallback_script)
                           "qemu:///system") (init tt)) <= 1.
Proof.
  assert (I : In (CallListDomains the_conn (Ok [3; 7; 9]%Z))
                 (trace (CollectFromLibvirt (env := scripted fallback_script)
                           "qemu:///system") (init tt))).
  { vm_compute. right. right. left. reflexivity. }
  split; [exact I | ].
  exact (fallback_holds_one_handle (env := scripted fallback_script) _ _ _ _ I).
Defined.

Lemma disks_queried_in_order_witness :
  In (CallUnmarshal "<domain/>"
        (Ok (descriptor [disk_of "/a.img" "vda"; disk_of "/b.img" "vdb";
                         disk_of "/c.img" "vdc"])))
     (trace (CollectDomain (env := scripted three_disks_script) (handle 1)) (init tt))
  /\ stats_queried
       (trace (CollectDomain (env := scripted three_disks_script) (handle 1)) (init tt))
     = ["vda"; "vdb"]
  /\ exists n,
       stats_queried
         (trace (CollectDomain (env := scripted three_disks_script) (handle 1)) (init tt))
       = map device (firstn n [disk_of "/a.img" "vda"; disk_of "/b.img" "vdb";
                               disk_of "/c.img" "vdc"]).
Proof.
  assert (I : In (CallUnmarshal "<domain/>"
                    (Ok (descriptor [disk_of "/a.img" "vda"; disk_of "/b.img" "vdb";
                                     disk_of "/c.img" "vdc"])))
                 (trace (CollectDomain (env := scripted three_disks_script) (handle 1))
                        (init tt))).
  { vm_compute. right. right. left. reflexivity. }
  destruct (disks_queried_in_order (env := scripted three_disks_script) _ _ _ _ I)
    as (n & Q & _).
  split; [exact I | ]. split; [reflexivity | ]. exists n. exact Q.
Defined.

Lemma CollectDomain_stops_at_failure_witness :
  trace (CollectDomain (env := scripted three_disks_script) (handle 1)) (init tt)
  = [ CallGetName (handle 1) (Ok "vm1");
      CallGetXMLDesc (handle 1) 0 (Ok "<domain/>");
      CallUnmarshal "<domain/>"
        (Ok (descriptor [disk_of "/a.img" "vda"; disk_of "/b.img" "vdb";
                         disk_of "/c.img" "vdc"]));
      CallBlockStats (handle 1) "vda" (Ok read_1024) ]
    ++ CallBlockStats (handle 1) "vdb" (Err no_device) :: []
  /\ collect_failure (CallBlockStats (handle 1) "vdb" (Err no_device)) = Some no_device
  /\ outcome (CollectDomain (env := scripted three_disks_script) (handle 1)) (init tt)
     = Return (Some no_device).
Proof.
  assert (T : trace (CollectDomain (env := scripted three_disks_script) (handle 1))
                    (init tt)
              = [ CallGetName (handle 1) (Ok "vm1");
                  CallGetXMLDesc (handle 1) 0 (Ok "<domain/>");
                  CallUnmarshal "<domain/>"
                    (Ok (descriptor [disk_of "/a.img" "vda"; disk_of "/b.img" "vdb";
                                     disk_of "/c.img" "vdc"]));
                  CallBlockStats (handle 1) "vda" (Ok read_1024) ]
                ++ CallBlockStats (handle 1) "vdb" (Err no_device) :: [])
    by reflexivity.
  split; [exact T | ]. split; [reflexivity | ].
  exact (proj2 (CollectDomain_stops_at_failure (env := scripted three_disks_script)
                  _ _ _ _ _ _ T eq_refl)).
Defined.
